(** * Forte: request proxy, generated wrappers, the ski runtime and the
      manual frontend bundle

    A shallow embedding of the request-path code of the repository:

    - [Proxy]: [CoRouterProxy::classify_request] and [CoRouterProxy::handle]
      (forte/PLAN.md 3.3);
    - [Wrapper]: the generated [wrapper_post] (forte/PLAN.md 6.4);
    - [Js], [Ski]: [runHandler] (ski/ski/run.js);
    - [Bundle]: the page-rendering [handler] of the manual frontend bundle;
    - [Emitter]: the Rust-to-TypeScript mapping (forte/PLAN.md 5);
    - [Watcher]: the compilation state machine;
    - [Rebuilding]: the proxy's answer during a build;
    - [Scenario]: the login route of the plan and other concrete inputs;
    - [SkiLegacy]: the earlier run script of ski;
    - [WrapperGet], [Toolchain], [Frontend]: [wrapper_get] (forte/PLAN.md
      4.2), the wasi-sdk toolchain (12.2) and [handleLogin] (6.6);
    - [Suisei]: [buildServer], [createServerEntry] and [runCommand];
    - [Infra]: the network blocks and the image of the cloud resources;
    - [Fixtures]: concrete inputs for these.

    The properties follow the definitions. *)

From Stdlib Require Import String Ascii List Bool ZArith Lia DecimalString.
From Stdlib Require FMapList FMapFacts OrderedTypeEx DecimalPos.
Import ListNotations.
Local Open Scope string_scope.

Set Warnings "-register-all".

(** ** Shared data *)

(** JSON values, as [serde_json] and [Response.json()] see them. *)
Inductive Json : Type :=
| JNull
| JBool (b : bool)
| JNum (n : Z)
| JStr (s : string)
| JArr (items : list Json)
| JObj (members : list (string * Json)).

(** [Result<T, E>]. *)
Inductive Result (T E : Type) : Type :=
| Ok (t : T)
| Err (e : E).
Arguments Ok {T E} t.
Arguments Err {T E} e.

(** An HTTP response of the Rust side: status line, headers and body. *)
Inductive Body : Type :=
| NoBody
| Text (s : string)
| JsonBody (j : Json).

Record Response : Type := mkResponse {
  status : Z;
  headers : list (string * string);
  body : Body
}.

(** A [HashMap] with the names of fields as keys: a finite map, every key
    at most once. *)
Module FieldMap := FMapList.Make OrderedTypeEx.String_as_OT.
Module FieldMapFacts := FMapFacts.WFacts_fun OrderedTypeEx.String_as_OT FieldMap.

(** ** The CLI proxy (forte/PLAN.md 3.3) *)

Module Proxy.

Inductive RequestType : Type := Static | Internal | ApiOnly | Page.

(** [str::starts_with]: [pre] is a prefix of [path]. *)
Definition starts_with (path pre : string) : bool := String.prefix pre path.

(** [CoRouterProxy::classify_request]. *)
Definition classify_request (path : string) : RequestType :=
  if starts_with path "/client/" || starts_with path "/static/" then Static
  else if starts_with path "/__forte/" then Internal
  else if starts_with path "/api/" then ApiOnly
  else Page.

(** The classification in the spec's words (section 4.6), to compare
    [classify_request] with. *)
Inductive classifies (path : string) : RequestType -> Prop :=
| classifies_client :
    starts_with path "/client/" = true -> classifies path Static
| classifies_static :
    starts_with path "/static/" = true -> classifies path Static
| classifies_internal :
    starts_with path "/__forte/" = true -> classifies path Internal
| classifies_api :
    starts_with path "/api/" = true -> classifies path ApiOnly
| classifies_page :
    starts_with path "/client/" = false ->
    starts_with path "/static/" = false ->
    starts_with path "/__forte/" = false ->
    starts_with path "/api/" = false ->
    classifies path Page.

Record Request : Type := mkRequest {
  req_method : string;
  req_path : string;          (* req.uri().path() *)
  req_body : string
}.

(** The collaborators behind the proxy: [static_handler.serve],
    [handle_internal], [wasm_runtime.handle_request],
    [wasm_runtime.get_props] and [node_client.render]. *)
Record CoRouterProxy : Type := mkProxy {
  static_serve : string -> Response;
  handle_internal : Request -> Response;
  wasm_handle_request : Request -> Response;
  wasm_get_props : Request -> Json;
  node_render : string -> Json -> Response
}.

(** [CoRouterProxy::handle]. *)
Definition handle (self : CoRouterProxy) (req : Request) : Response :=
  let path := req_path req in
  match classify_request path with
  | Static => static_serve self path
  | Internal => handle_internal self req
  | ApiOnly => wasm_handle_request self req
  | Page =>
      let props := wasm_get_props self req in
      node_render self path props
  end.

End Proxy.

(** ** The generated POST wrapper (forte/PLAN.md 6.3 - 6.5) *)

Module Wrapper.

(** [serde::Serialize]. *)
Class Serialize (T : Type) : Type := to_json : T -> Json.

(** An enum deriving [Serialize] under [#[serde(tag = "type")]], as the
    CLI generates [Response] and [Error] (6.3): each value has a variant
    name and the named fields of that variant. *)
Class TaggedEnum (T : Type) : Type := {
  variant_name : T -> string;
  variant_fields : T -> list (string * Json)
}.

(** serde's internally tagged representation: the tag member first, the
    variant's fields inlined after it (6.5, items 3 and 4). *)
Definition tagged_json {T} `{TaggedEnum T} (v : T) : Json :=
  JObj (("type", JStr (variant_name v)) :: variant_fields v).

#[export] Instance TaggedEnum_Serialize {T} `{TaggedEnum T} : Serialize T :=
  tagged_json.

(** [validator::ValidationError] (validator 0.18, forte/PLAN.md 20): the
    code of the validator that failed, the message of its attribute when it
    has one, and its parameters. *)
Record ValidationError : Type := mkValidationError {
  code : string;
  message : option string;
  params : list (string * Json)
}.

(** [validator::ValidationErrorsKind]: what is wrong with one field.  The
    nested maps of [Struct] and [List] are given by their entries. *)
Inductive ValidationErrorsKind : Type :=
| StructErrors (errors : list (string * ValidationErrorsKind))
| ListErrors (errors : list (nat * list (string * ValidationErrorsKind)))
| FieldErrors (errors : list ValidationError).

(** [validator::ValidationErrors]: a map from the name of each failing
    field to its errors, however many validators failed on it. *)
Definition ValidationErrors : Type := FieldMap.t ValidationErrorsKind.

(** [validator::Validate]. *)
Class Validate (T : Type) : Type :=
  validate : T -> Result unit ValidationErrors.

(** The message that a 400 response gives for a field with its errors, a
    parameter of [send_validation_error_400].  The plan prints such messages
    (6.5: "Invalid email format") but not where they come from:
    [#[validate(email)]] of 6.3 sets none. *)
Class FieldMessage : Type :=
  field_message : string -> ValidationErrorsKind -> string.

(** [anyhow::Error], by its message. *)
Definition AnyhowError : Type := string.

Definition json_headers : list (string * string) :=
  [("content-type", "application/json")].

(** Modelled from the spec: the body of the helper [send_json_200], which
    the sources only call.  The status is the one in its name; the body is
    the serialised argument, as in [wrapper_get] and in the format of
    forte/PLAN.md 6.5 (spec section 6, response envelopes). *)
Definition send_json_200 {T} `{Serialize T} (v : T) : Response :=
  mkResponse 200 json_headers (JsonBody (to_json v)).

(** Modelled from the spec: the body of the helper [send_error_500], which
    the sources only call.  The status is the one in its name, the body the
    500 envelope of forte/PLAN.md 6.5 (spec section 6) with the error's
    message. *)
Definition send_error_500 (e : AnyhowError) : Response :=
  mkResponse 500 json_headers
    (JsonBody (JObj [("error", JStr "Internal Server Error");
                     ("message", JStr e)])).

(** One entry of the 400 envelope (6.5). *)
Definition validation_entry (e : string * string) : Json :=
  JObj [("field", JStr (fst e)); ("message", JStr (snd e))].

(** Modelled from the spec: the body of the helper
    [send_validation_error_400], which the sources only call.  The status is
    the one in its name, the body the 400 envelope of forte/PLAN.md 6.5 (spec
    section 6): for every field of the map, one entry with the field's name
    and its message. *)
Definition send_validation_error_400 `{FieldMessage}
    (errors : ValidationErrors) : Response :=
  mkResponse 400 json_headers
    (JsonBody
       (JObj [("error", JStr "Validation Error");
              ("errors",
               JArr (map (fun e =>
                            validation_entry
                              (fst e, field_message (fst e) (snd e)))
                       (FieldMap.elements errors)))])).

(** Modelled from the spec: the body of the helper [send_error_400], which
    the sources only call.  The status is the one in its name; neither the
    plan nor the spec gives the body, which here carries the message. *)
Definition send_error_400 (msg : string) : Response :=
  mkResponse 400 json_headers (JsonBody (JObj [("error", JStr msg)])).

(** The wrapper runs user code; the log records every call of
    [post_action] with its argument. *)
Definition Logged (L A : Type) : Type := (A * list L)%type.

Definition ret {L A} (a : A) : Logged L A := (a, []).

Definition bind {L A B} (m : Logged L A) (f : A -> Logged L B) : Logged L B :=
  let (b, l2) := f (fst m) in (b, (snd m ++ l2)%list).

Definition call {L A} (l : L) (a : A) : Logged L A := (a, [l]).

Section WrapperPost.

Context {ActionInput ActionResponse ActionError : Type}.
Context `{Validate ActionInput}.
Context `{TaggedEnum ActionResponse} `{TaggedEnum ActionError}.
Context `{FieldMessage}.

(** [parse_body(&req).await]. *)
Variable parse_body : Proxy.Request -> string.
(** [serde_json::from_slice::<ActionInput>]. *)
Variable from_slice : string -> Result ActionInput string.
(** The user's [post_action]: the two-level result. *)
Variable post_action :
  ActionInput -> Result (Result ActionResponse ActionError) AnyhowError.

(** [wrapper_post] (6.4). *)
Definition wrapper_post (req : Proxy.Request)
    : Logged ActionInput Response :=
  (* 1. request body *)
  let body := parse_body req in
  (* 2. ActionInput deserialisation *)
  match from_slice body with
  | Err _ => ret (send_error_400 "Invalid JSON")
  | Ok input =>
      (* 3. validation *)
      match validate input with
      | Err errors => ret (send_validation_error_400 errors)
      | Ok _ =>
          (* 4. post_action *)
          bind (call input (post_action input)) (fun r =>
          match r with
          | Err anyhow_err => ret (send_error_500 anyhow_err)
          | Ok result =>
              match result with
              | Ok response => ret (send_json_200 response)
              | Err error => ret (send_json_200 error)
              end
          end)
      end
  end.

End WrapperPost.

End Wrapper.

(** ** JavaScript completions *)

Module Js.

(** A thrown value.  The [catch (e)] of run.js reads [e.message] and
    [e.stack]; on [null] and [undefined] that read is a TypeError, on every
    other value it is not. *)
Inductive Thrown : Type :=
| ErrorObject (message : string)
| Nullish.

(** How a call (or an awaited promise) ends. *)
Inductive Completion (A : Type) : Type :=
| Normal (a : A)
| Throw (e : Thrown).
Arguments Normal {A} a.
Arguments Throw {A} e.

Definition bind {A B} (m : Completion A) (f : A -> Completion B)
    : Completion B :=
  match m with
  | Normal a => f a
  | Throw e => Throw e
  end.

(** [String.prototype.split] with a one-character separator: the pieces
    between the separators, always at least one piece. *)
Fixpoint split (sep : ascii) (s : string) : list string :=
  match s with
  | EmptyString => [EmptyString]
  | String c s' =>
      if Ascii.eqb c sep then EmptyString :: split sep s'
      else match split sep s' with
           | [] => [String c EmptyString]
           | p :: ps => String c p :: ps
           end
  end.

(** [a[i] === s] on an array of strings: an index out of range reads
    [undefined], which is strictly equal to no string. *)
Definition index_is (a : list string) (i : nat) (s : string) : bool :=
  match nth_error a i with
  | Some x => String.eqb x s
  | None => false
  end.

End Js.

(** ** The ski runtime (ski/ski/run.js) *)

Module Ski.
Import Js.

Definition Headers : Type := list (string * string).

(** A [ReadableStream]: resource-backed streams carry their resource id
    under [Symbol.for("Deno.core.resourceId")]. *)
Record ReadableStream : Type := mkStream {
  resourceId : option nat;
  content : string
}.

(** The tuple of [op_get_request_parts]. *)
Record RequestParts : Type := mkParts {
  url : string;
  method : string;
  parts_headers : Headers;
  rid : option nat
}.

Record Request : Type := mkRequest {
  req_url : string;
  req_method : string;
  req_headers : Headers;
  req_body : option ReadableStream
}.

Record JsResponse : Type := mkJsResponse {
  resp_status : Z;
  resp_headers : Headers;
  resp_body : option ReadableStream
}.

(** One call of [core.ops.op_respond(status, headers, rid)]. *)
Record RespondCall : Type := mkRespond {
  sent_status : Z;
  sent_headers : Headers;
  sent_rid : option nat
}.

(** What run.js runs against: the ops of the embedder, the constructors of
    the web platform and the global [handler] of the user code ([None] when
    [typeof handler !== "function"]). *)
Record Env : Type := mkEnv {
  op_get_request_parts : Completion RequestParts;
  readableStreamForRid : nat -> ReadableStream;
  new_Request : string -> string -> Headers -> option ReadableStream
                -> Completion Request;
  handler : option (Request -> Completion JsResponse);
  resourceForReadableStream : ReadableStream -> nat;
  op_respond : RespondCall -> Completion unit
}.

(** A computation that calls [op_respond]: the calls made, in order, and
    how the computation ends. *)
Definition Eff (A : Type) : Type := (list RespondCall * Completion A)%type.

Definition lift {A} (c : Completion A) : Eff A := ([], c).

Definition ebind {A B} (m : Eff A) (f : A -> Eff B) : Eff B :=
  match m with
  | (t, Normal a) => let (t', r) := f a in ((t ++ t')%list, r)
  | (t, Throw e) => (t, Throw e)
  end.

(** [try { m } catch (e) { h e }]. *)
Definition try_catch {A} (m : Eff A) (h : Thrown -> Eff A) : Eff A :=
  match m with
  | (t, Normal a) => (t, Normal a)
  | (t, Throw e) => let (t', r) := h e in ((t ++ t')%list, r)
  end.

Definition respond (env : Env) (c : RespondCall) : Eff unit :=
  ([c], op_respond env c).

(** [console.error("[ski/run.js] Error:", e.message, e.stack)]. *)
Definition console_error (e : Thrown) : Eff unit :=
  match e with
  | ErrorObject _ => lift (Normal tt)
  | Nullish =>
      lift (Throw (ErrorObject "Cannot read properties of undefined"))
  end.

Notation "x <- m ;; k" := (ebind m (fun x => k))
  (at level 61, m at next level, right associativity).

(** The body of the [try] of [runHandler]. *)
Definition try_block (env : Env) : Eff unit :=
  parts <- lift (op_get_request_parts env) ;;
  let body :=
    match rid parts with
    | Some r => Some (readableStreamForRid env r)
    | None => None
    end in
  request <- lift (new_Request env (url parts) (method parts)
                     (parts_headers parts) body) ;;
  match handler env with
  | None =>
      lift (Throw (ErrorObject
                     "User code must define a global 'handler' function."))
  | Some handler =>
      response <- lift (handler request) ;;
      let responseBody := resp_body response in
      let responseRid :=
        match responseBody with
        | Some b =>
            match resourceId b with
            | Some denoRid => Some denoRid
            | None => Some (resourceForReadableStream env b)
            end
        | None => None
        end in
      respond env
        (mkRespond (resp_status response) (resp_headers response)
           responseRid)
  end.

(** The arguments of [op_respond] in the [catch]. *)
Definition failure_response : RespondCall :=
  mkRespond 500 [("content-type", "text/plain")] None.

(** [runHandler]. *)
Definition runHandler (env : Env) : Eff unit :=
  try_catch (try_block env) (fun e =>
    _ <- console_error e ;;
    respond env failure_response).

End Ski.

(** ** The manual frontend bundle (forte-manual): its [handler] *)

Module Bundle.
Import Js.

(** [new URL(req.url)], by its [pathname]. *)
Record URL : Type := mkURL { pathname : string }.

(** The request handed to the bundle: [req.json()] and [req.url]. *)
Record Request : Type := mkRequest {
  json : Completion Json;
  req_url : URL
}.

Section Handler.

(** React elements and the streams they render to. *)
Context {Element Stream : Type}.

Inductive BodyInit : Type :=
| StreamBody (s : Stream)
| StringBody (s : string).

(** [new Response(body, { status })]; the status defaults to 200. *)
Record JsResponse : Type := mkJsResponse {
  resp_body : BodyInit;
  resp_status : Z
}.

(** The default exports of [./pages/index/page] and
    [./pages/product/[id]/page], and [renderToReadableStream]. *)
Variable index_page : Json -> Completion Element.
Variable product_page : Json -> Completion Element.
Variable renderToReadableStream : Element -> Completion Stream.

Definition render (page : Json -> Completion Element) (props : Json)
    : Completion JsResponse :=
  bind (page props) (fun el =>
  bind (renderToReadableStream el) (fun s =>
  Normal (mkJsResponse (StreamBody s) 200))).

(** [handler]. *)
Definition handler (req : Request) : Completion JsResponse :=
  bind (json req) (fun props =>
  let url := req_url req in
  let pathParts := split "/" (pathname url) in
  if (length pathParts =? 2)%nat && index_is pathParts 2 "" then
    render index_page props
  else if (length pathParts =? 3)%nat && index_is pathParts 2 "product" then
    render product_page props
  else
    Normal (mkJsResponse (StringBody "Not Found") 404)).

End Handler.

End Bundle.

(** ** The type emitter (forte/PLAN.md 5) *)

Module Emitter.

Inductive IntKind : Type := I8 | I16 | I32 | I64 | U8 | U16 | U32 | U64.
Inductive FloatKind : Type := F32 | F64.

(** The Rust types of the tables 5.1 and 5.2. *)
Inductive RustType : Type :=
| RString                         (* String *)
| RStr                            (* &str *)
| RInt (k : IntKind)
| RFloat (k : FloatKind)
| RBool
| ROption (t : RustType)
| RVec (t : RustType)
| RHashMap (k v : RustType)
| RExtern (path : string)         (* a type of an external crate (5.2) *)
| RNamed (name : string).         (* a struct or enum of the same file (5.4) *)

(** TypeScript types, as far as the generated declarations use them. *)
Inductive TsType : Type :=
| TsString
| TsNumber
| TsBoolean
| TsNull
| TsLit (s : string)                          (* "Pending" *)
| TsArray (t : TsType)                        (* T[] *)
| TsRecord (k v : TsType)                     (* Record<K, V> *)
| TsUnion (members : list TsType)             (* A | B | ... *)
| TsObject (fields : list (string * TsType))  (* { f: T; ... } *)
| TsRef (name : string).

Inductive EmitError : Type :=
| UnsupportedMapKey (k : RustType)
| UnmappedType (path : string).

(** [type_mappings] of Forte.toml (5.2): Rust path to TypeScript type. *)
Definition TypeMappings : Type := list (string * string).

Definition plan_type_mappings : TypeMappings :=
  [("chrono::DateTime<Utc>", "string");
   ("chrono::NaiveDate", "string");
   ("uuid::Uuid", "string");
   ("rust_decimal::Decimal", "string")].

Fixpoint lookup (k : string) (tm : TypeMappings) : option string :=
  match tm with
  | [] => None
  | (k', v) :: tm' => if String.eqb k k' then Some v else lookup k tm'
  end.

Definition ts_of_name (n : string) : TsType :=
  if String.eqb n "string" then TsString
  else if String.eqb n "number" then TsNumber
  else if String.eqb n "boolean" then TsBoolean
  else TsRef n.

Definition is_string_key (k : RustType) : bool :=
  match k with
  | RString | RStr => true
  | _ => false
  end.

(** Modelled from the spec: the emitter's mapping of types, whose code is
    not among the sources.  The mapping is the table of forte/PLAN.md 5.1
    with the external types of 5.2; that a map with a key other than a string
    is the error [UnsupportedMapKey] is the spec's (section 4.2), the plan
    having only the row [HashMap<String, T>]. *)
Fixpoint map_type (tm : TypeMappings) (t : RustType)
    : Result TsType EmitError :=
  match t with
  | RString | RStr => Ok TsString
  | RInt _ | RFloat _ => Ok TsNumber
  | RBool => Ok TsBoolean
  | ROption t' =>
      match map_type tm t' with
      | Ok ts => Ok (TsUnion [ts; TsNull])
      | Err e => Err e
      end
  | RVec t' =>
      match map_type tm t' with
      | Ok ts => Ok (TsArray ts)
      | Err e => Err e
      end
  | RHashMap k v =>
      if is_string_key k then
        match map_type tm v with
        | Ok ts => Ok (TsRecord TsString ts)
        | Err e => Err e
        end
      else Err (UnsupportedMapKey k)
  | RExtern path =>
      match lookup path tm with
      | Some n => Ok (ts_of_name n)
      | None => Err (UnmappedType path)
      end
  | RNamed name => Ok (TsRef name)
  end.

(** The types below which [map_type] fails: a map keyed by something that
    is no string, or an external type without a mapping. *)
Fixpoint unsupported (tm : TypeMappings) (t : RustType) : bool :=
  match t with
  | ROption t' | RVec t' => unsupported tm t'
  | RHashMap k v => negb (is_string_key k) || unsupported tm v
  | RExtern path =>
      match lookup path tm with
      | Some _ => false
      | None => true
      end
  | _ => false
  end.

(** Enum variants, as the spec and the plan have them: a unit variant
    ([Pending]) or one that carries named fields
    ([Active { since: String }]). *)
Inductive VariantData : Type :=
| UnitVariant
| StructVariant (fields : list (string * RustType)).

Record EnumDef : Type := mkEnum {
  enum_name : string;
  variants : list (string * VariantData)
}.

Definition is_unit (d : VariantData) : bool :=
  match d with
  | UnitVariant => true
  | _ => false
  end.

Definition all_unit (e : EnumDef) : bool :=
  forallb (fun v => is_unit (snd v)) (variants e).

Fixpoint map_fields (tm : TypeMappings) (fs : list (string * RustType))
    : Result (list (string * TsType)) EmitError :=
  match fs with
  | [] => Ok []
  | (n, t) :: fs' =>
      match map_type tm t with
      | Err e => Err e
      | Ok ts =>
          match map_fields tm fs' with
          | Err e => Err e
          | Ok rest => Ok ((n, ts) :: rest)
          end
      end
  end.

(** The fixed discriminant field of a tagged union: "type" (spec section 6;
    forte/PLAN.md 5.3). *)
Definition discriminant : string := "type".

(** Modelled from the spec: the emitter's treatment of one variant of an
    enum that has a data-carrying variant (see [emit_enum]): an object with
    the discriminant field, whose type is the variant's name, and after it
    the variant's fields (spec 4.1, enum translation policy; forte/PLAN.md
    5.3). *)
Definition emit_variant (tm : TypeMappings) (v : string * VariantData)
    : Result TsType EmitError :=
  let (name, data) := v in
  match data with
  | UnitVariant => Ok (TsObject [(discriminant, TsLit name)])
  | StructVariant fs =>
      match map_fields tm fs with
      | Ok fs' => Ok (TsObject ((discriminant, TsLit name) :: fs'))
      | Err e => Err e
      end
  end.

Fixpoint emit_variants (tm : TypeMappings) (vs : list (string * VariantData))
    : Result (list TsType) EmitError :=
  match vs with
  | [] => Ok []
  | v :: vs' =>
      match emit_variant tm v with
      | Err e => Err e
      | Ok m =>
          match emit_variants tm vs' with
          | Err e => Err e
          | Ok ms => Ok (m :: ms)
          end
      end
  end.

(** Modelled from the spec: the emitter's treatment of enums, whose code is
    not among the sources (the plan has one example, 5.3, and the sources
    have generated files).  Spec 4.1: an enum of unit variants only becomes
    the closed set of the string literals of their names; an enum with a
    data-carrying variant becomes a tagged union, every variant an object
    with the discriminant (see [emit_variant]). *)
Definition emit_enum (tm : TypeMappings) (e : EnumDef)
    : Result TsType EmitError :=
  if all_unit e then Ok (TsUnion (map (fun v => TsLit (fst v)) (variants e)))
  else
    match emit_variants tm (variants e) with
    | Ok ms => Ok (TsUnion ms)
    | Err err => Err err
    end.

(** A member of a tagged union with discriminant [d]: an object with a
    field [d] whose type is a string literal. *)
Definition has_discriminant (d : string) (m : TsType) : bool :=
  match m with
  | TsObject fs =>
      existsb (fun f => String.eqb (fst f) d &&
                        match snd f with TsLit _ => true | _ => false end) fs
  | _ => false
  end.

Definition tagged_union (d : string) (t : TsType) : bool :=
  match t with
  | TsUnion ms => forallb (has_discriminant d) ms
  | _ => false
  end.

(** The enum of forte/PLAN.md 5.3. *)
Definition plan_Status : EnumDef :=
  mkEnum "Status"
    [("Pending", UnitVariant);
     ("Active", StructVariant [("since", RString)]);
     ("Inactive", UnitVariant)].

(** Its generated TypeScript, as printed in 5.3. *)
Definition plan_Status_ts : TsType :=
  TsUnion [TsObject [("type", TsLit "Pending")];
           TsObject [("type", TsLit "Active"); ("since", TsString)];
           TsObject [("type", TsLit "Inactive")]].

(** The type of [variant] in the generated index page props, and an enum
    with these three unit variants. *)
Definition props_variant_ts : TsType :=
  TsUnion [TsLit "Primary"; TsLit "Secondary"; TsLit "Alert"].

Definition BannerVariant : EnumDef :=
  mkEnum "BannerVariant"
    [("Primary", UnitVariant); ("Secondary", UnitVariant);
     ("Alert", UnitVariant)].

End Emitter.

(** ** The compilation state machine (spec 4.4; forte/PLAN.md 3.6, 14.2) *)

Module Watcher.

(** A loaded backend module, by its version. *)
Definition ModuleHandle : Type := nat.

Inductive CompilationState : Type :=
| Idle
| Compiling
| Ready
| Failed (diagnostic : string).

(** What the watcher pipeline reports: a relevant file change after the
    debounce, the end of a build whose module was swapped in, the failure
    of a build. *)
Inductive Event : Type :=
| FileChange
| BuildSucceeded (new_module : ModuleHandle)
| BuildFailed (diagnostic : string).

Record Pipeline : Type := mkPipeline {
  state : CompilationState;
  active : option ModuleHandle
}.

(** Modelled from the spec: the transitions of the watcher pipeline, whose
    code is not among the sources (the plan has the flow of 3.6 and the
    three flags of 14.2).  Section 4.4: a file change starts a build from
    [Idle], [Ready] and [Failed] and is coalesced while one runs; a build
    ends in [Ready] with the new module active, or in [Failed] with the
    previous module still active; the end of a build is only reported while
    one runs. *)
Definition step (p : Pipeline) (e : Event) : Pipeline :=
  match e, state p with
  | FileChange, Compiling => p
  | FileChange, _ => mkPipeline Compiling (active p)
  | BuildSucceeded h, Compiling => mkPipeline Ready (Some h)
  | BuildFailed d, Compiling => mkPipeline (Failed d) (active p)
  | _, _ => p
  end.

Definition run (p : Pipeline) (events : list Event) : Pipeline :=
  fold_left step events p.

(** Modelled from the spec: the initial state (section 4.4) is [Compiling]
    when no module exists at startup, [Idle] otherwise. *)
Definition initial (existing : option ModuleHandle) : Pipeline :=
  match existing with
  | None => mkPipeline Compiling None
  | Some h => mkPipeline Idle (Some h)
  end.

(** The edges that section 4.4 lists, in the spec's words, each with the
    event that takes it. *)
Inductive edge : CompilationState -> Event -> CompilationState -> Prop :=
| edge_idle : edge Idle FileChange Compiling
| edge_ready : edge Ready FileChange Compiling
| edge_failed d : edge (Failed d) FileChange Compiling
| edge_success h : edge Compiling (BuildSucceeded h) Ready
| edge_failure d : edge Compiling (BuildFailed d) (Failed d).

End Watcher.

(** ** Requests during a build (spec 4.6, step 1; forte/PLAN.md 14.2) *)

Module Rebuilding.

(** Modelled from the spec: the response with the fixed "rebuilding"
    status.  The proxy's check of the compilation state is not among the
    sources: [CoRouterProxy::handle] (forte/PLAN.md 3.3) has none, and 14.2
    describes it in four lines of prose (a new request, the test
    [backend_compiling == true], a 503 answer with a "Compiling..."
    message, the refresh signal once the build is over).  The status is the
    503 of those lines, which is none of 200, 404 and 500 as spec section 6
    asks; the body is the one of spec section 6, [{"status": "compiling"}].
    Neither text names a header. *)
Definition rebuilding_response : Response :=
  mkResponse 503 [] (JsonBody (JObj [("status", JStr "compiling")])).

(** Modelled from the spec: [handle] of spec 4.6 with its step 1, which
    [CoRouterProxy::handle] lacks.  While the state is [Compiling], a
    request of type ApiOnly or Page gets the rebuilding response; requests
    of type Static and Internal bypass the check, and in every other state
    the request is handled by its type (steps 2 to 5, which are
    [CoRouterProxy::handle]). *)
Definition handle (self : Proxy.CoRouterProxy)
    (state : Watcher.CompilationState) (req : Proxy.Request) : Response :=
  match state with
  | Watcher.Compiling =>
      match Proxy.classify_request (Proxy.req_path req) with
      | Proxy.ApiOnly | Proxy.Page => rebuilding_response
      | Proxy.Static | Proxy.Internal => Proxy.handle self req
      end
  | _ => Proxy.handle self req
  end.

End Rebuilding.

(** ** Concrete routes and environments *)

Module Scenario.

(** A proxy whose collaborators answer with recognisable responses. *)
Definition proxy : Proxy.CoRouterProxy :=
  Proxy.mkProxy
    (fun path => mkResponse 200 [] (Text ("file " ++ path)))
    (fun _ => mkResponse 200 [] (Text "internal"))
    (fun _ => mkResponse 200 Wrapper.json_headers (JsonBody (JObj [])))
    (fun _ => JObj [])
    (fun path _ => mkResponse 200 [] (Text ("html " ++ path))).

Definition get (path : string) : Proxy.Request :=
  Proxy.mkRequest "GET" path "".

(** The login route of forte/PLAN.md 6.3. *)
Record ActionInput : Type := mkInput {
  email : string;
  password : string
}.

Inductive ActionResponse : Type := Success (token : string).
Inductive ActionError : Type := InvalidCredentials (message : string).

#[export] Instance ActionResponse_tagged
    : Wrapper.TaggedEnum ActionResponse := {
  variant_name := fun _ => "Success";
  variant_fields := fun r => match r with Success t => [("token", JStr t)] end
}.

#[export] Instance ActionError_tagged : Wrapper.TaggedEnum ActionError := {
  variant_name := fun _ => "InvalidCredentials";
  variant_fields :=
    fun e => match e with InvalidCredentials m => [("message", JStr m)] end
}.

Fixpoint contains (c : ascii) (s : string) : bool :=
  match s with
  | EmptyString => false
  | String c' s' => Ascii.eqb c c' || contains c s'
  end.

(** The errors that [#[validate(email)]] and [#[validate(length(...))]] add
    for a value. *)
Definition email_error (value : string) : Wrapper.ValidationError :=
  Wrapper.mkValidationError "email" None [("value", JStr value)].

Definition length_error (bound : string) (n : nat) (value : string)
    : Wrapper.ValidationError :=
  Wrapper.mkValidationError "length" None
    [(bound, JNum (Z.of_nat n)); ("value", JStr value)].

(** [#[derive(Validate)]] on [ActionInput] (6.3): [#[validate(email)]] on
    the address and [#[validate(length(min = 8))]] on the password; the
    errors are collected by field and returned when there are any.  The test
    for an address is a stand-in for validator's. *)
#[export] Instance ActionInput_validate : Wrapper.Validate ActionInput :=
  fun input =>
    let errors := FieldMap.empty Wrapper.ValidationErrorsKind in
    let errors :=
      if contains "@" (email input) then errors
      else FieldMap.add "email"
             (Wrapper.FieldErrors [email_error (email input)]) errors in
    let errors :=
      if (8 <=? String.length (password input))%nat then errors
      else FieldMap.add "password"
             (Wrapper.FieldErrors [length_error "min" 8 (password input)])
             errors in
    if FieldMap.is_empty errors then Ok tt else Err errors.

(** The same input with two validators on the address,
    [#[validate(email, length(max = 12))]]: both errors go under the one
    field. *)
Definition ActionInput_strict : Wrapper.Validate ActionInput :=
  fun input =>
    let on_email :=
      ((if contains "@" (email input) then []
        else [email_error (email input)])
       ++ (if (String.length (email input) <=? 12)%nat then []
           else [length_error "max" 12 (email input)]))%list in
    match on_email with
    | [] => Ok tt
    | _ =>
        Err (FieldMap.add "email" (Wrapper.FieldErrors on_email)
               (FieldMap.empty Wrapper.ValidationErrorsKind))
    end.

(** The messages of 6.5, by the code of the field's first error. *)
#[export] Instance messages : Wrapper.FieldMessage :=
  fun _ kind =>
    match kind with
    | Wrapper.FieldErrors (e :: _) =>
        if String.eqb (Wrapper.code e) "email" then "Invalid email format"
        else if String.eqb (Wrapper.code e) "length"
        then "Must be at least 8 characters"
        else Wrapper.code e
    | _ => "Invalid value"
    end.

(** A stand-in for the request body and its deserialisation: the body is
    the e-mail address and the password on two lines. *)
Definition parse_body (req : Proxy.Request) : string := Proxy.req_body req.

Definition from_slice (body : string) : Result ActionInput string :=
  match Js.split "010" body with
  | [e; p] => Ok (mkInput e p)
  | _ => Err "Invalid JSON"
  end.

(** A stand-in for the user database of 6.3: one account, and an address
    for which the query fails. *)
Definition post_action (input : ActionInput)
    : Result (Result ActionResponse ActionError) Wrapper.AnyhowError :=
  if String.eqb (email input) "down@example.com"
  then Err "Database query failed"
  else if String.eqb (password input) "correct horse"
  then Ok (Ok (Success "eyJhbGciOiJIUzI1NiIs"))
  else Ok (Err (InvalidCredentials "Invalid email or password")).

Definition post (body : string) : Proxy.Request :=
  Proxy.mkRequest "POST" "/login" body.

Definition login : Proxy.Request -> Wrapper.Logged ActionInput Response :=
  Wrapper.wrapper_post parse_body from_slice post_action.

Definition lines (a b : string) : string := a ++ String "010" b.

(** An environment of the ski runtime: a GET of [url] without a body. *)
Definition ski_env (url : string)
    (handler : option (Ski.Request -> Js.Completion Ski.JsResponse))
    : Ski.Env :=
  Ski.mkEnv
    (Js.Normal (Ski.mkParts url "GET" [] None))
    (fun r => Ski.mkStream (Some r) "")
    (fun u m h b => Js.Normal (Ski.mkRequest u m h b))
    handler
    (fun _ => 7)
    (fun _ => Js.Normal tt).

Definition throwing_handler (e : Js.Thrown) (_ : Ski.Request)
    : Js.Completion Ski.JsResponse := Js.Throw e.

Definition hello_handler (_ : Ski.Request) : Js.Completion Ski.JsResponse :=
  Js.Normal (Ski.mkJsResponse 200 [("content-type", "text/html")]
               (Some (Ski.mkStream None "<h1>hello</h1>"))).



(** Pages of the bundle that render to their name. *)
Definition index_page (_ : Json) : Js.Completion string := Js.Normal "index".
Definition product_page (_ : Json) : Js.Completion string :=
  Js.Normal "product".
Definition renderToReadableStream (el : string) : Js.Completion string :=
  Js.Normal ("<" ++ el ++ ">").

Definition bundle_handler
    : Bundle.Request -> Js.Completion (@Bundle.JsResponse string) :=
  Bundle.handler index_page product_page renderToReadableStream.

(** A request with JSON props, and one whose body is no JSON:
    [req.json()] rejects with a SyntaxError. *)
Definition with_props (path : string) : Bundle.Request :=
  Bundle.mkRequest (Js.Normal (JObj [])) (Bundle.mkURL path).

Definition without_json (path : string) : Bundle.Request :=
  Bundle.mkRequest
    (Js.Throw (Js.ErrorObject "Unexpected end of JSON input"))
    (Bundle.mkURL path).

End Scenario.

(** ** Strings of the JavaScript side *)

Module JsString.

(** [s.includes(c)] for a character. *)
Fixpoint has_char (c : ascii) (s : string) : bool :=
  match s with
  | EmptyString => false
  | String c' s' => Ascii.eqb c' c || has_char c s'
  end.

(** [parts.join(sep)]. *)
Fixpoint join (sep : ascii) (parts : list string) : string :=
  match parts with
  | [] => EmptyString
  | [p] => p
  | p :: rest => p ++ String sep (join sep rest)
  end.

End JsString.

(** ** Effects of the JavaScript tools *)

Module Eff.
Import Js.

(** How an awaited computation ends: with a value, with a thrown value, or
    never (a promise that nobody settles). *)
Inductive Status (A : Type) : Type :=
| Done (a : A)
| Threw (e : Thrown)
| Pending.
Arguments Done {A} a.
Arguments Threw {A} e.
Arguments Pending {A}.

(** A computation with a log of its visible actions. *)
Definition M (L A : Type) : Type := (list L * Status A)%type.

Definition ret {L A} (a : A) : M L A := ([], Done a).

Definition bind {L A B} (m : M L A) (f : A -> M L B) : M L B :=
  match m with
  | (t, Done a) => let (t', r) := f a in ((t ++ t')%list, r)
  | (t, Threw e) => (t, Threw e)
  | (t, Pending) => (t, Pending)
  end.

Definition lift {L A} (c : Completion A) : M L A :=
  match c with
  | Normal a => ([], Done a)
  | Throw e => ([], Threw e)
  end.

Definition throw {L A} (e : Thrown) : M L A := ([], Threw e).

(** An action that is logged and then ends as [s]. *)
Definition act {L A} (l : L) (s : Status A) : M L A := ([l], s).

(** [try { m } catch (e) { h e }]. *)
Definition try_catch {L A} (m : M L A) (h : Thrown -> M L A) : M L A :=
  match m with
  | (t, Threw e) => let (t', r) := h e in ((t ++ t')%list, r)
  | _ => m
  end.

Definition of_completion {A} (c : Completion A) : Status A :=
  match c with
  | Normal a => Done a
  | Throw e => Threw e
  end.

End Eff.

(** ** The earlier run script of ski *)

Module SkiLegacy.
Import Js.

(** The resource argument of [op_respond]: the script passes [null] for a
    response without body and otherwise whatever the body has under
    [Symbol.for("Deno.core.resourceId")], which is [undefined] for a plain
    stream. *)
Inductive Rid : Type :=
| RidNull
| RidUndefined
| RidOf (n : nat).

Record RespondCall : Type := mkRespond {
  sent_status : Z;
  sent_headers : Ski.Headers;
  sent_rid : Rid
}.

(** The ops and the user code that the script runs against; the global of
    the user code is [handle] here. *)
Record Env : Type := mkEnv {
  op_get_request_parts : Completion Ski.RequestParts;
  readableStreamForRid : nat -> Ski.ReadableStream;
  new_Request : string -> string -> Ski.Headers -> option Ski.ReadableStream
                -> Completion Ski.Request;
  handle : option (Ski.Request -> Completion Ski.JsResponse);
  op_respond : RespondCall -> Completion unit
}.

Definition respond (env : Env) (c : RespondCall) : Eff.M RespondCall unit :=
  Eff.act c (Eff.of_completion (op_respond env c)).

Definition failure_response : RespondCall :=
  mkRespond 500 [("content-type", "text/plain")] RidNull.

(** The body of the [try]. *)
Definition try_block (env : Env) : Eff.M RespondCall unit :=
  Eff.bind (Eff.lift (op_get_request_parts env)) (fun parts =>
  let body :=
    match Ski.rid parts with
    | Some r => Some (readableStreamForRid env r)
    | None => None
    end in
  Eff.bind (Eff.lift (new_Request env (Ski.url parts) (Ski.method parts)
                        (Ski.parts_headers parts) body)) (fun request =>
  match handle env with
  | None =>
      Eff.throw (ErrorObject
                   "User code must define a global 'handle' function.")
  | Some handle =>
      Eff.bind (Eff.lift (handle request)) (fun response =>
      let responseBody := Ski.resp_body response in
      let responseRid :=
        match responseBody with
        | Some b =>
            match Ski.resourceId b with
            | Some r => RidOf r
            | None => RidUndefined
            end
        | None => RidNull
        end in
      respond env
        (mkRespond (Ski.resp_status response) (Ski.resp_headers response)
           responseRid))
  end)).

(** The script: an async function called at once. *)
Definition run (env : Env) : Eff.M RespondCall unit :=
  Eff.try_catch (try_block env) (fun e =>
    Eff.bind
      (match e with
       | ErrorObject _ => Eff.ret tt
       | Nullish =>
           Eff.throw (ErrorObject "Cannot read properties of undefined")
       end)
      (fun _ => respond env failure_response)).




End SkiLegacy.

(** ** Rust: panics and paths *)

Module Rust.

(** A call returns, or it panics ([unwrap] on [None] or [Err],
    [panic!]). *)
Inductive Outcome (A : Type) : Type :=
| Returned (a : A)
| Panicked.
Arguments Returned {A} a.
Arguments Panicked {A}.

Definition digit (c : ascii) : option Z :=
  let n := nat_of_ascii c in
  if (48 <=? n)%nat && (n <=? 57)%nat then Some (Z.of_nat n - 48)%Z else None.

Fixpoint digits (acc : Z) (s : string) : option Z :=
  match s with
  | EmptyString => Some acc
  | String c s' =>
      match digit c with
      | Some d => digits (10 * acc + d)%Z s'
      | None => None
      end
  end.

(** [str::parse::<i32>]: an optional sign, then one decimal digit or more
    and nothing else; a value outside of the type is an error. *)
Definition parse_i32 (s : string) : option Z :=
  match s with
  | EmptyString => None
  | String c rest =>
      let negative := Ascii.eqb c "-" in
      let ds := if negative || Ascii.eqb c "+" then rest else s in
      match ds with
      | EmptyString => None
      | _ =>
          match digits 0 ds with
          | Some n =>
              let v := if negative then (- n)%Z else n in
              if ((-2147483648 <=? v) && (v <=? 2147483647))%Z
              then Some v else None
          | None => None
          end
      end
  end.

(** The values of [i32]. *)
Definition in_i32 (n : Z) : bool :=
  ((-2147483648 <=? n) && (n <=? 2147483647))%Z.

(** The decimal numeral of an integer, as [to_string] prints it: the
    digits without leading zeros, after a minus sign for a negative
    number. *)
Definition decimal (n : Z) : string := NilZero.string_of_int (Z.to_int n).

Definition ends_with_slash (s : string) : bool :=
  match get (String.length s - 1) s with
  | Some c => Ascii.eqb c "/"
  | None => false
  end.

(** [Path::join] as the Unix platforms have it: an absolute [rel] replaces
    [base]; otherwise [rel] is appended, after a slash when [base] lacks
    one.  On Windows the separator and the prefixes differ, so that the code
    below takes the join from its host. *)
Definition path_join (base rel : string) : string :=
  if String.prefix "/" rel then rel
  else if String.eqb base "" then rel
  else if ends_with_slash base then base ++ rel
  else base ++ "/" ++ rel.

End Rust.

(** ** The generated GET wrapper (forte/PLAN.md 4.2) *)

Module WrapperGet.
Import Rust.

(** The path parameters that the router puts into the request's
    extensions, by name. *)
Definition PathParams : Type := list (string * string).

Fixpoint get (k : string) (params : PathParams) : option string :=
  match params with
  | [] => None
  | (k', v) :: rest => if String.eqb k k' then Some v else get k rest
  end.

Record Request : Type := mkRequest {
  extensions : option PathParams    (* req.extensions().get::<PathParams>() *)
}.

(** [ProductPath] (4.3); its [id] is an [i32]. *)
Record ProductPath : Type := mkPath { id : Z }.

(** [e.status_code()]. *)
Class StatusCode (E : Type) : Type := status_code : E -> Z.

(** [serde_json::to_string]: the JSON of a value, or the error of a
    [Serialize] implementation that fails. *)
Class ToString (T : Type) : Type := to_string : T -> Result Json string.

(** [Result::unwrap]. *)
Definition unwrap {A E} (r : Result A E) : Outcome A :=
  match r with
  | Ok a => Returned a
  | Err _ => Panicked
  end.

Section WrapperGet.

Context {PageProps E : Type}.
Context `{ToString PageProps} `{ToString E} `{StatusCode E}.

(** The user's [get_props]. *)
Variable get_props : ProductPath -> Result PageProps E.

(** [Response::builder().status(code).header(name, value).body(body)] of
    wstd: the response, or the builder's error when it refuses the status
    or the header. *)
Variable builder : Z -> string * string -> Body -> Result Response string.

(** The third step, for a status and a value: both results are
    unwrapped. *)
Definition respond (code : Z) (json : Result Json string)
    : Outcome Response :=
  match unwrap json with
  | Panicked => Panicked
  | Returned json =>
      unwrap (builder code ("content-type", "application/json")
                (JsonBody json))
  end.

(** [wrapper_get]; the log has the calls of [get_props]. *)
Definition wrapper_get (req : Request)
    : Wrapper.Logged ProductPath (Outcome Response) :=
  (* 1. path parameters *)
  match extensions req with
  | None => Wrapper.ret Panicked
  | Some params =>
      match get "id" params with
      | None => Wrapper.ret Panicked
      | Some raw =>
          match parse_i32 raw with
          | None => Wrapper.ret Panicked
          | Some n =>
              let path := mkPath n in
              (* 2. the user's function *)
              Wrapper.bind (Wrapper.call path (get_props path))
                (fun result =>
                 (* 3. the response *)
                 match result with
                 | Ok props => Wrapper.ret (respond 200 (to_string props))
                 | Err e =>
                     Wrapper.ret (respond (status_code e) (to_string e))
                 end)
          end
      end
  end.

End WrapperGet.

End WrapperGet.

(** ** The wasi-sdk toolchain (forte/PLAN.md 12.2) *)

Module Toolchain.
Import Rust.

(** [detect_wasi_sdk_url], on [std::env::consts::OS] and [ARCH]. *)
Definition detect_wasi_sdk_url (os arch : string) : Outcome string :=
  if String.eqb os "linux" && String.eqb arch "aarch64" then
    Returned "https://github.com/WebAssembly/wasi-sdk/releases/download/wasi-sdk-29/wasi-sdk-29.0-arm64-linux.tar.gz"
  else if String.eqb os "linux" && String.eqb arch "x86_64" then
    Returned "https://github.com/WebAssembly/wasi-sdk/releases/download/wasi-sdk-29/wasi-sdk-29.0-x86_64-linux.tar.gz"
  else if String.eqb os "macos" && String.eqb arch "aarch64" then
    Returned "https://github.com/WebAssembly/wasi-sdk/releases/download/wasi-sdk-29/wasi-sdk-29.0-arm64-macos.tar.gz"
  else if String.eqb os "macos" && String.eqb arch "x86_64" then
    Returned "https://github.com/WebAssembly/wasi-sdk/releases/download/wasi-sdk-29/wasi-sdk-29.0-x86_64-macos.tar.gz"
  else if String.eqb os "windows" && String.eqb arch "x86_64" then
    Returned "https://github.com/WebAssembly/wasi-sdk/releases/download/wasi-sdk-29/wasi-sdk-29.0-x86_64-windows.tar.gz"
  else if String.eqb os "windows" && String.eqb arch "aarch64" then
    Returned "https://github.com/WebAssembly/wasi-sdk/releases/download/wasi-sdk-29/wasi-sdk-29.0-arm64-windows.tar.gz"
  else Panicked.

(** The platforms of the table of [detect_wasi_sdk_url]. *)
Definition supported (os arch : string) : Prop :=
  In os ["linux"; "macos"; "windows"] /\ In arch ["aarch64"; "x86_64"].

(** The machine that the CLI runs on. *)
Record Host : Type := mkHost {
  OS : string;
  ARCH : string;
  cache_dir : option string;                 (* dirs::cache_dir() *)
  join : string -> string -> string;         (* Path::join, of the platform *)
  exists_ : string -> bool;                  (* Path::exists *)
  download_and_extract : string -> string -> Result unit string
}.

Inductive Error : Type :=
| NoCacheDir
| DownloadFailed (reason : string).

(** One call of [download_and_extract(url, &sdk_path)]. *)
Record Download : Type := mkDownload {
  download_url : string;
  download_target : string
}.

(** [ensure_wasi_sdk]; the log has the downloads. *)
Definition ensure_wasi_sdk (h : Host)
    : Wrapper.Logged Download (Outcome (Result string Error)) :=
  match cache_dir h with
  | None => Wrapper.ret (Returned (Err NoCacheDir))
  | Some cache =>
      let sdk_path := join h cache "forte/wasi-sdk-29" in
      if negb (exists_ h sdk_path) then
        match detect_wasi_sdk_url (OS h) (ARCH h) with
        | Panicked => Wrapper.ret Panicked
        | Returned url =>
            Wrapper.bind
              (Wrapper.call (mkDownload url sdk_path)
                 (download_and_extract h url sdk_path))
              (fun r =>
               match r with
               | Err reason =>
                   Wrapper.ret (Returned (Err (DownloadFailed reason)))
               | Ok _ => Wrapper.ret (Returned (Ok sdk_path))
               end)
        end
      else Wrapper.ret (Returned (Ok sdk_path))
  end.

End Toolchain.

(** ** The login form (forte/PLAN.md 6.6) *)

Module Frontend.
Import Js.

(** The member [k] of a parsed JSON object; of two members of the same name
    the later one counts, as in [JSON.parse]. *)
Fixpoint member (k : string) (ms : list (string * Json)) : option Json :=
  match ms with
  | [] => None
  | (k', v) :: ms' =>
      match member k ms' with
      | Some later => Some later
      | None => if String.eqb k k' then Some v else None
      end
  end.

(** [v.k], also as read by a destructuring [const { k } = v]: a TypeError on
    [null], [undefined] on every value that has no such property. *)
Definition prop (k : string) (v : Json) : Completion (option Json) :=
  match v with
  | JNull => Throw (ErrorObject "Cannot read properties of null")
  | JObj ms => Normal (member k ms)
  | _ => Normal None
  end.

(** The response of [fetch]: [res.status] and [await res.json()]. *)
Record FetchResponse : Type := mkFetch {
  fetch_status : Z;
  fetch_json : Completion Json
}.

(** What the form does to the page; a value that may be [undefined] is an
    [option]. *)
Inductive UiEffect : Type :=
| Alert (message : option Json)          (* alert(`Server Error: ${message}`) *)
| SetValidationErrors (errors : option Json)
| SetItem (key : string) (value : option Json)    (* localStorage.setItem *)
| Navigate (path : string)
| SetError (message : option Json).

Definition is_string (s : string) (v : option Json) : bool :=
  match v with
  | Some (JStr s') => String.eqb s' s
  | _ => false
  end.

(** [handleLogin], from the response of the [fetch] on. *)
Definition handleLogin (fetched : Completion FetchResponse)
    : Eff.M UiEffect unit :=
  Eff.bind (Eff.lift fetched) (fun res =>
  (* 1. Internal Server Error *)
  if (fetch_status res =? 500)%Z then
    Eff.bind (Eff.lift (fetch_json res)) (fun body =>
    Eff.bind (Eff.lift (prop "error" body)) (fun _ =>
    Eff.bind (Eff.lift (prop "message" body)) (fun message =>
    Eff.act (Alert message) (Eff.Done tt))))
  (* 2. Validation Error *)
  else if (fetch_status res =? 400)%Z then
    Eff.bind (Eff.lift (fetch_json res)) (fun body =>
    Eff.bind (Eff.lift (prop "errors" body)) (fun errors =>
    Eff.act (SetValidationErrors errors) (Eff.Done tt)))
  (* 3. Business logic *)
  else if (fetch_status res =? 200)%Z then
    Eff.bind (Eff.lift (fetch_json res)) (fun data =>
    Eff.bind (Eff.lift (prop "type" data)) (fun type =>
    if is_string "Success" type then
      Eff.bind (Eff.lift (prop "token" data)) (fun token =>
      Eff.bind (Eff.act (SetItem "token" token) (Eff.Done tt)) (fun _ =>
      Eff.act (Navigate "/dashboard") (Eff.Done tt)))
    else if is_string "InvalidCredentials" type then
      Eff.bind (Eff.lift (prop "message" data)) (fun message =>
      Eff.act (SetError message) (Eff.Done tt))
    else Eff.ret tt))
  else Eff.ret tt).

(** What [fetch] yields for a response of the backend: its status, and its
    body as [res.json()] parses it. *)
Definition fetched_from (r : Response) : Completion FetchResponse :=
  Normal (mkFetch (status r)
            (match body r with
             | JsonBody j => Normal j
             | _ => Throw (ErrorObject "Unexpected token")
             end)).

End Frontend.

(** ** The suisei build (build.ts, rolldown/config.ts) *)

Module Suisei.
Import Js.

(** [generateRolldownConfig]. *)
Definition generateRolldownConfig (inputFile outputFile : string) : string :=
  "export default {
  input: '" ++ inputFile ++ "',
  external: /wasi:.*/,
  output: {
    file: '" ++ outputFile ++ "',
    format: 'esm',
    inlineDynamicImports: true,
  },
};
".

Definition shimContent : string :=
  "const IntlMock = {
  DateTimeFormat: class {
    constructor(locales, options) {}
    format(date) {
      return new Date(date || Date.now()).toISOString();
    }
    resolvedOptions() {
      return { locale: 'en-US' };
    }
  },
  NumberFormat: class {
    constructor(locales, options) {}
    format(number) {
      return String(number);
    }
    resolvedOptions() {
      return { locale: 'en-US' };
    }
  },
  Segmenter: class {
    segment(input) {
      return input.split('');
    }
  },
};

const WebAssemblyMock = {
  compile: () => Promise.reject(new Error('WebAssembly.compile is not supported')),
  instantiate: () => Promise.reject(new Error('WebAssembly.instantiate is not supported')),
  validate: () => false,
  Module: class {},
  Instance: class {},
  Memory: class {},
  Table: class {},
  CompileError: Error,
  LinkError: Error,
  RuntimeError: Error,
};

if (typeof globalThis.Intl === 'undefined') {
  globalThis.Intl = IntlMock;
}

if (typeof globalThis.WebAssembly === 'undefined') {
  globalThis.WebAssembly = WebAssemblyMock;
}
".

Definition entryContent (manifestFile : string) : string :=
  "import './shim-intl.js';
import { App } from 'astro/app';
import { manifest } from './" ++ manifestFile ++ "';
import { createHonoApp } from 'suisei/server/hono-app';
import { fire } from '@bytecodealliance/jco-std/wasi/0.2.6/http/adapters/hono/server';

const app = createHonoApp(new App(manifest));
fire(app);

export { incomingHandler } from '@bytecodealliance/jco-std/wasi/0.2.6/http/adapters/hono/server';
".

(** [file.endsWith(suffix)]. *)
Definition ends_with (s suffix : string) : bool :=
  let n := String.length s in
  let m := String.length suffix in
  (m <=? n)%nat && String.eqb (substring (n - m) m s) suffix.

Definition is_manifest (file : string) : bool :=
  String.prefix "manifest_" file && ends_with file ".mjs".

(** What a child process emits. *)
Inductive ChildEvent : Type :=
| Close (code : option Z)                    (* null after a signal *)
| ErrorEvent (e : Thrown).

(** The options of [spawn] next to [stdio: 'inherit']: the working
    directory, and the [NODE_PATH] that is set over [process.env]. *)
Record SpawnOptions : Type := mkOptions {
  cwd : string;
  node_path : option string
}.

(** What the build does to the world. *)
Inductive Action : Type :=
| WriteFile (path content : string)
| Spawn (cmd : string) (args : list string) (options : SpawnOptions).

(** The world of the build. *)
Record Host : Type := mkHost {
  readdir : string -> Completion (list string);
  writeFile : string -> string -> Completion unit;
  spawn : string -> list string -> SpawnOptions -> list ChildEvent;
  fileURLToPath : string -> Completion string;
  resolve : list string -> string;
  dirname : string -> string;
  import_meta_url : string
}.

(** [`${code}`] for an exit code. *)
Definition show_code (code : option Z) : string :=
  match code with
  | Some n => NilZero.string_of_int (Z.to_int n)
  | None => "null"
  end.

(** The promise of [runCommand], settled by the first event of the child;
    it stays pending when the child emits none. *)
Definition settle (events : list ChildEvent) : Eff.Status unit :=
  match events with
  | [] => Eff.Pending
  | Close code :: _ =>
      match code with
      | Some 0%Z => Eff.Done tt
      | _ => Eff.Threw (ErrorObject ("Command failed with code "
                                      ++ show_code code))
      end
  | ErrorEvent e :: _ => Eff.Threw e
  end.

(** [runCommand]. *)
Definition runCommand (h : Host) (cmd : string) (args : list string)
    (options : SpawnOptions) : Eff.M Action unit :=
  Eff.act (Spawn cmd args options) (settle (spawn h cmd args options)).

Definition write (h : Host) (path content : string) : Eff.M Action unit :=
  Eff.act (WriteFile path content)
    (Eff.of_completion (writeFile h path content)).

(** [createServerEntry]. *)
Definition createServerEntry (h : Host) (serverDir : string)
    : Eff.M Action unit :=
  Eff.bind (Eff.lift (readdir h serverDir)) (fun files =>
  match find is_manifest files with
  | None =>
      Eff.throw (ErrorObject
                   "Could not find manifest file in server directory")
  | Some manifestFile =>
      Eff.bind (write h (resolve h [serverDir; "shim-intl.js"]) shimContent)
        (fun _ =>
      write h (resolve h [serverDir; "component.ts"])
        (entryContent manifestFile))
  end).

(** The [server] and [client] directories of the Astro build, as URLs. *)
Record BuildConfig : Type := mkBuildConfig {
  server : string;
  client : string
}.

(** [buildServer]. *)
Definition buildServer (h : Host) (buildConfig : BuildConfig)
    : Eff.M Action unit :=
  Eff.bind (Eff.lift (fileURLToPath h (server buildConfig))) (fun serverDir =>
  Eff.bind (Eff.lift (fileURLToPath h (client buildConfig))) (fun clientDir =>
  Eff.bind (createServerEntry h serverDir) (fun _ =>
  let rolldownConfigPath := resolve h [serverDir; "rolldown.config.mjs"] in
  let componentInput := resolve h [serverDir; "component.ts"] in
  let componentOutput := resolve h [serverDir; "component.js"] in
  let rolldownConfig :=
    generateRolldownConfig "./component.ts" "./component.js" in
  Eff.bind (write h rolldownConfigPath rolldownConfig) (fun _ =>
  Eff.bind (Eff.lift (fileURLToPath h (import_meta_url h))) (fun self =>
  let suiseiRoot := resolve h [dirname h self; ".."] in
  let witDir := resolve h [suiseiRoot; "wit"] in
  let rolldownBin :=
    resolve h [suiseiRoot; "node_modules"; ".bin"; "rolldown"] in
  let jcoBin := resolve h [suiseiRoot; "node_modules"; ".bin"; "jco"] in
  Eff.bind (runCommand h rolldownBin ["-c"; rolldownConfigPath]
              (mkOptions serverDir None)) (fun _ =>
  let wasmOutput := resolve h [serverDir; "component.wasm"] in
  let projectRoot := resolve h [serverDir; ".."; ".."] in
  let nodeModulesPath := resolve h [projectRoot; "node_modules"] in
  runCommand h jcoBin
    ["componentize"; "-w"; witDir; "-o"; wasmOutput; componentOutput]
    (mkOptions projectRoot (Some nodeModulesPath)))))))).

End Suisei.

(** ** Network blocks and images of the cloud resources *)

Module Infra.

(** [s.split(sep)[0]] for a separator that is not empty: the part of [s]
    before the first [sep], all of [s] when there is none. *)
Fixpoint before_first (sep s : string) : string :=
  if String.prefix sep s then EmptyString
  else match s with
       | EmptyString => EmptyString
       | String c s' => String c (before_first sep s')
       end.

Fixpoint drop (n : nat) (s : string) : string :=
  match n, s with
  | O, _ => s
  | S n', String _ s' => drop n' s'
  | S _, EmptyString => EmptyString
  end.

(** [s.replace(pat, rep)] for a string [pat] that is not empty and a [rep]
    without [$]: the first [pat] in [s] becomes [rep]. *)
Fixpoint replace (pat rep s : string) : string :=
  if String.prefix pat s then rep ++ drop (String.length pat) s
  else match s with
       | EmptyString => EmptyString
       | String c s' => String c (replace pat rep s')
       end.

(** [s.includes(pat)]. *)
Fixpoint includes (pat s : string) : bool :=
  String.prefix pat s
  || match s with
     | EmptyString => false
     | String _ s' => includes pat s'
     end.

(** The block of the subnet, from the block of the VPC ([undefined] while
    the VPC has none). *)
Definition subnet_ipv6CidrBlock (cidr : option string) : string :=
  match cidr with
  | None => ""
  | Some "" => ""
  | Some cidr =>
      let prefix := before_first "::/" cidr in
      prefix ++ "00::/64"
  end.

(** The blocks of the subnet of the compute worker, from those of its
    network. *)
Definition subnet_ipv6cidrBlocks (blocks : list string) : list string :=
  map (fun x => replace "/56" "/64" x) blocks.

Record Image : Type := mkImage {
  image_id : string;
  createImageAllowed : bool;
  displayName : string
}.

(** An image that may be used and is built for aarch64. *)
Definition usable (x : Image) : bool :=
  createImageAllowed x && includes "-aarch64-" (displayName x).

(** The image of the instance configuration, from the result of
    [getImages]: the id of the first image that may be used and is built for
    aarch64; an error when there is none, or when that id is empty. *)
Definition pick_image (images : list Image) : Js.Completion string :=
  match find usable images with
  | Some x =>
      if String.eqb (image_id x) "" then
        Js.Throw (Js.ErrorObject "can not find image")
      else Js.Normal (image_id x)
  | None => Js.Throw (Js.ErrorObject "can not find image")
  end.

End Infra.

(** ** More concrete inputs *)

Module Fixtures.

(** The product route of forte/PLAN.md 4.3, with a stand-in for the lookup:
    product 7 exists. *)
Record PageProps : Type := mkProps {
  props_id : Z;
  props_name : string
}.

Inductive NotFound : Type := NoSuchProduct (id : Z).

#[export] Instance PageProps_to_string : WrapperGet.ToString PageProps :=
  fun p =>
    Ok (JObj [("id", JNum (props_id p)); ("name", JStr (props_name p))]).

#[export] Instance NotFound_to_string : WrapperGet.ToString NotFound :=
  fun e => match e with NoSuchProduct n => Ok (JObj [("id", JNum n)]) end.

#[export] Instance NotFound_status : WrapperGet.StatusCode NotFound :=
  fun _ => 404%Z.

Definition get_props (path : WrapperGet.ProductPath)
    : Result PageProps NotFound :=
  if (WrapperGet.id path =? 7)%Z then Ok (mkProps 7 "Widget")
  else Err (NoSuchProduct (WrapperGet.id path)).

(** A builder that refuses what is no status code. *)
Definition builder (code : Z) (header : string * string) (content : Body)
    : Result Response string :=
  if ((100 <=? code) && (code <=? 999))%Z
  then Ok (mkResponse code [header] content)
  else Err "invalid status code".

Definition product (raw : string) : WrapperGet.Request :=
  WrapperGet.mkRequest (Some [("id", raw)]).

Definition product_get
    : WrapperGet.Request
      -> Wrapper.Logged WrapperGet.ProductPath (Rust.Outcome Response) :=
  WrapperGet.wrapper_get get_props builder.

(** A Unix machine with a cache directory; [present] says whether the SDK
    directory exists. *)
Definition machine (os : string) (present : bool) : Toolchain.Host :=
  Toolchain.mkHost os "x86_64" (Some "/home/dev/.cache") Rust.path_join
    (fun _ => present) (fun _ _ => Ok tt).

(** A Windows machine without the SDK, on which the download fails; its
    paths are joined with a backslash. *)
Definition windows_machine : Toolchain.Host :=
  Toolchain.mkHost "windows" "aarch64" (Some "C:\Users\dev\AppData\Local")
    (fun base rel => base ++ String "092" rel)
    (fun _ => false) (fun _ _ => Err "No space left on device").

(** A build directory with one manifest, and tools that exit with [code];
    paths are resolved by joining with a slash. *)
Definition build_host (code : Z) : Suisei.Host :=
  Suisei.mkHost
    (fun _ => Js.Normal ["_astro"; "manifest_Dx3kQ.mjs"; "manifest_old.mjs"])
    (fun _ _ => Js.Normal tt)
    (fun _ _ _ => [Suisei.Close (Some code)])
    (fun url => Js.Normal (Infra.drop 7 url))
    (fun parts => JsString.join "/" parts)
    (fun path =>
       JsString.join "/" (removelast (Js.split "/" path)))
    "file:///opt/suisei/dist/build.js".

Definition build_config : Suisei.BuildConfig :=
  Suisei.mkBuildConfig "file:///app/dist/server" "file:///app/dist/client".

Definition images : list Infra.Image :=
  [Infra.mkImage "ocid1.image.x86" true "Oracle-Linux-10-2025";
   Infra.mkImage "" true "Oracle-Linux-10-aarch64-2025";
   Infra.mkImage "ocid1.image.arm" true "Oracle-Linux-10-aarch64-2024"].

End Fixtures.

(** * Properties *)

(** ** Classification *)

Example classify_client :
  Proxy.classify_request "/client/app.js" = Proxy.Static.
Proof. reflexivity. Qed.

Example classify_static :
  Proxy.classify_request "/static/logo.png" = Proxy.Static.
Proof. reflexivity. Qed.

Example classify_internal :
  Proxy.classify_request "/__forte/hmr" = Proxy.Internal.
Proof. reflexivity. Qed.

Example classify_api : Proxy.classify_request "/api/product/1" = Proxy.ApiOnly.
Proof. reflexivity. Qed.

Example classify_page : Proxy.classify_request "/product/1" = Proxy.Page.
Proof. reflexivity. Qed.

(** The prefix needs its closing slash. *)
Example classify_api_bare : Proxy.classify_request "/api" = Proxy.Page.
Proof. reflexivity. Qed.

(** A path that starts with a prefix of two characters or more starts with
    these two characters. *)
Lemma starts_with_head (a b : ascii) (pre path : string) :
  Proxy.starts_with path (String a (String b pre)) = true ->
  exists rest, path = String a (String b rest).
Proof.
  unfold Proxy.starts_with.
  destruct path as [|x [|y rest]]; simpl; try discriminate.
  - destruct (ascii_dec a x); discriminate.
  - destruct (ascii_dec a x) as [->|]; [|discriminate].
    destruct (ascii_dec b y) as [->|]; [|discriminate].
    intros _. now exists rest.
Qed.

(** Once [H] says that [path] starts with one of the prefixes, [path] does
    not start with the prefix [p], whose second character is another one. *)
Ltac other_prefix H path p :=
  let E := fresh "E" in
  assert (E : Proxy.starts_with path p = false)
    by (destruct (starts_with_head _ _ _ _ H) as [? ->]; reflexivity);
  rewrite E; clear E.

(** [classify_request] computes the type that the prefix rules give. *)
Lemma classify_request_iff (path : string) (t : Proxy.RequestType) :
  Proxy.classify_request path = t <-> Proxy.classifies path t.
Proof.
  unfold Proxy.classify_request. split.
  - destruct (Proxy.starts_with path "/client/") eqn:Hc.
    { intros <-. now apply Proxy.classifies_client. }
    destruct (Proxy.starts_with path "/static/") eqn:Hs.
    { intros <-. now apply Proxy.classifies_static. }
    destruct (Proxy.starts_with path "/__forte/") eqn:Hi.
    { intros <-. now apply Proxy.classifies_internal. }
    destruct (Proxy.starts_with path "/api/") eqn:Ha.
    { intros <-. now apply Proxy.classifies_api. }
    intros <-. now apply Proxy.classifies_page.
  - intros [H|H|H|H|Hc Hs Hi Ha].
    + now rewrite H.
    + rewrite H. now rewrite orb_true_r.
    + other_prefix H path "/client/". other_prefix H path "/static/".
      now rewrite H.
    + other_prefix H path "/client/". other_prefix H path "/static/".
      other_prefix H path "/__forte/". now rewrite H.
    + now rewrite Hc, Hs, Hi, Ha.
Qed.

(** C1.  [classify_request] is a total function into the four request
    types Static, Internal, ApiOnly and Page, and it classifies by the fixed
    prefixes: the type it returns is the one the prefix rules give
    ("/client/" and "/static/" Static, "/__forte/" Internal, "/api/" ApiOnly,
    every other path Page), and no path has a second type under these
    rules. *)
Theorem classify_request_by_prefix (path : string) :
  Proxy.classifies path (Proxy.classify_request path)
  /\ (forall t, Proxy.classifies path t -> t = Proxy.classify_request path).
Proof.
  split.
  - now apply classify_request_iff.
  - intros t Ht. symmetry. now apply classify_request_iff.
Qed.

Lemma classify_request_by_prefix_witness :
  Proxy.classifies "/api/product/1" Proxy.ApiOnly
  /\ (Proxy.classifies "/api/product/1" Proxy.ApiOnly ->
      Proxy.ApiOnly = Proxy.classify_request "/api/product/1").
Proof.
  split.
  - exact (proj1 (classify_request_by_prefix "/api/product/1")).
  - exact (proj2 (classify_request_by_prefix "/api/product/1") Proxy.ApiOnly).
Defined.

(** ** Requests during a build *)

Example compiling_api :
  Rebuilding.handle Scenario.proxy Watcher.Compiling
    (Scenario.get "/api/product/1")
  = mkResponse 503 [] (JsonBody (JObj [("status", JStr "compiling")])).
Proof. reflexivity. Qed.

Example compiling_static :
  Rebuilding.handle Scenario.proxy Watcher.Compiling
    (Scenario.get "/static/logo.png")
  = mkResponse 200 [] (Text "file /static/logo.png").
Proof. reflexivity. Qed.

Example failed_api :
  Rebuilding.handle Scenario.proxy (Watcher.Failed "error[E0308]")
    (Scenario.get "/api/product/1")
  = mkResponse 200 Wrapper.json_headers (JsonBody (JObj [])).
Proof. reflexivity. Qed.

(** Outside of [Compiling] the check changes nothing. *)
Lemma handle_when_not_compiling (self : Proxy.CoRouterProxy)
    (state : Watcher.CompilationState) (req : Proxy.Request) :
  state <> Watcher.Compiling ->
  Rebuilding.handle self state req = Proxy.handle self req.
Proof.
  intros N. destruct state; try reflexivity. now elim N.
Qed.

(** C2.  While the state is [Compiling], a request of type ApiOnly or Page
    is answered with the rebuilding response: its status is none of 200, 404
    and 500, its body is [{"status": "compiling"}], and it is the same
    response for every such request and every proxy, so that no collaborator
    is consulted.  A request of type Static is served by the static file
    handler and one of type Internal by the internal handler, as they are
    outside of a build. *)
Theorem rebuilding_while_compiling (self : Proxy.CoRouterProxy)
    (req : Proxy.Request) :
  let type := Proxy.classify_request (Proxy.req_path req) in
  let response := Rebuilding.handle self Watcher.Compiling req in
  (type = Proxy.ApiOnly \/ type = Proxy.Page ->
     status response <> 200%Z
     /\ status response <> 404%Z
     /\ status response <> 500%Z
     /\ body response = JsonBody (JObj [("status", JStr "compiling")])
     /\ forall self' req',
          Proxy.classify_request (Proxy.req_path req') = Proxy.ApiOnly
          \/ Proxy.classify_request (Proxy.req_path req') = Proxy.Page ->
          Rebuilding.handle self' Watcher.Compiling req' = response)
  /\ (type = Proxy.Static ->
        response = Proxy.static_serve self (Proxy.req_path req)
        /\ response = Proxy.handle self req)
  /\ (type = Proxy.Internal ->
        response = Proxy.handle_internal self req
        /\ response = Proxy.handle self req).
Proof.
  cbv zeta.
  assert (fixed : forall self' req',
            Proxy.classify_request (Proxy.req_path req') = Proxy.ApiOnly
            \/ Proxy.classify_request (Proxy.req_path req') = Proxy.Page ->
            Rebuilding.handle self' Watcher.Compiling req'
            = Rebuilding.rebuilding_response).
  { intros self' req' T. unfold Rebuilding.handle.
    destruct T as [-> | ->]; reflexivity. }
  split; [|split].
  - intros T. rewrite (fixed self req T).
    repeat apply conj; try discriminate; try reflexivity. exact fixed.
  - intros T. unfold Rebuilding.handle, Proxy.handle. rewrite T. now split.
  - intros T. unfold Rebuilding.handle, Proxy.handle. rewrite T. now split.
Qed.

Lemma rebuilding_while_compiling_witness :
  status (Rebuilding.handle Scenario.proxy Watcher.Compiling
            (Scenario.get "/product/1")) <> 200%Z
  /\ body (Rebuilding.handle Scenario.proxy Watcher.Compiling
             (Scenario.get "/product/1"))
     = JsonBody (JObj [("status", JStr "compiling")])
  /\ Rebuilding.handle Scenario.proxy Watcher.Compiling
       (Scenario.get "/static/logo.png")
     = mkResponse 200 [] (Text "file /static/logo.png")
  /\ Rebuilding.handle Scenario.proxy Watcher.Compiling
       (Scenario.get "/__forte/reload")
     = mkResponse 200 [] (Text "internal").
Proof.
  pose proof (proj1 (rebuilding_while_compiling Scenario.proxy
                       (Scenario.get "/product/1")) (or_intror eq_refl))
    as (H200 & _ & _ & Hbody & _).
  pose proof (proj1 (proj1 (proj2 (rebuilding_while_compiling Scenario.proxy
                               (Scenario.get "/static/logo.png"))) eq_refl))
    as Hstatic.
  pose proof (proj1 (proj2 (proj2 (rebuilding_while_compiling Scenario.proxy
                               (Scenario.get "/__forte/reload"))) eq_refl))
    as Hinternal.
  exact (conj H200 (conj Hbody (conj Hstatic Hinternal))).
Defined.

(** ** The three tiers of [wrapper_post] *)

Example login_wrong_password :
  Scenario.login (Scenario.post (Scenario.lines "a@b.c" "wrong password"))
  = (mkResponse 200 Wrapper.json_headers
       (JsonBody (JObj [("type", JStr "InvalidCredentials");
                        ("message", JStr "Invalid email or password")])),
     [Scenario.mkInput "a@b.c" "wrong password"]).
Proof. reflexivity. Qed.

Example login_short_password :
  Scenario.login (Scenario.post (Scenario.lines "ab.c" "short"))
  = (mkResponse 400 Wrapper.json_headers
       (JsonBody (JObj
          [("error", JStr "Validation Error");
           ("errors",
            JArr [JObj [("field", JStr "email");
                        ("message", JStr "Invalid email format")];
                  JObj [("field", JStr "password");
                        ("message", JStr "Must be at least 8 characters")]])])),
     []).
Proof. reflexivity. Qed.

Example login_database_down :
  fst (Scenario.login
         (Scenario.post (Scenario.lines "down@example.com" "whatever it is")))
  = mkResponse 500 Wrapper.json_headers
      (JsonBody (JObj [("error", JStr "Internal Server Error");
                       ("message", JStr "Database query failed")])).
Proof. reflexivity. Qed.

Example login_not_json :
  Scenario.login (Scenario.post "garbage")
  = (mkResponse 400 Wrapper.json_headers
       (JsonBody (JObj [("error", JStr "Invalid JSON")])), []).
Proof. reflexivity. Qed.

Section WrapperFacts.

Import Wrapper.

Context {ActionInput ActionResponse ActionError : Type}.
Context `{Validate ActionInput}.
Context `{TaggedEnum ActionResponse} `{TaggedEnum ActionError}.
Context `{FieldMessage}.

Variable parse_body : Proxy.Request -> string.
Variable from_slice : string -> Result ActionInput string.
Variable post_action :
  ActionInput -> Result (Result ActionResponse ActionError) AnyhowError.

Local Abbreviation wrapper :=
  (wrapper_post parse_body from_slice post_action).

(** [post_action] is called at most once, on the deserialised input, and
    only after validation has passed. *)
Lemma wrapper_post_calls (req : Proxy.Request) (input : ActionInput) :
  In input (snd (wrapper req)) ->
  from_slice (parse_body req) = Ok input
  /\ validate input = Ok tt
  /\ snd (wrapper req) = [input].
Proof.
  unfold wrapper_post.
  destruct (from_slice (parse_body req)) as [i|e]; [|intros []].
  destruct (validate i) as [[]|errors] eqn:V; [|intros []].
  unfold bind, call. simpl.
  destruct (post_action i) as [[r|e]|e]; simpl;
    (intros [<-|[]]; auto).
Qed.

(** What the wrapper answers once [post_action] has run on [input]. *)
Lemma wrapper_post_after_call (req : Proxy.Request) (input : ActionInput) :
  In input (snd (wrapper req)) ->
  fst (wrapper req)
  = match post_action input with
    | Err anyhow_err => send_error_500 anyhow_err
    | Ok (Ok response) => send_json_200 response
    | Ok (Err error) => send_json_200 error
    end.
Proof.
  intros Hin. destruct (wrapper_post_calls req input Hin) as (P & V & _).
  unfold wrapper_post. rewrite P, V. unfold bind, call. simpl.
  now destruct (post_action input) as [[r|e]|e].
Qed.

(** C4.  When the wrapper has called [post_action] on an input and the
    business logic returned a declared error variant (the inner [Err] of the
    two-level result), the response has status 200, so neither 400 nor 500,
    and its body is the tagged JSON of that variant: the member "type" with
    the variant's name, followed by the variant's fields. *)
Theorem business_error_is_200 (req : Proxy.Request) (input : ActionInput)
    (error : ActionError) :
  In input (snd (wrapper req)) ->
  post_action input = Ok (Err error) ->
  fst (wrapper req)
  = mkResponse 200 json_headers
      (JsonBody (JObj (("type", JStr (variant_name error))
                       :: variant_fields error)))
  /\ status (fst (wrapper req)) <> 400%Z
  /\ status (fst (wrapper req)) <> 500%Z.
Proof.
  intros Hin Hpost.
  rewrite (wrapper_post_after_call req input Hin), Hpost.
  repeat split; discriminate.
Qed.

(** The fields of a map of errors, as its entries list them: each failing
    field once, and no other. *)
Lemma failing_fields_once (errors : ValidationErrors) (f : string) :
  count_occ string_dec (map fst (FieldMap.elements errors)) f
  = if FieldMap.mem f errors then 1%nat else 0%nat.
Proof.
  assert (keys : NoDup (map fst (FieldMap.elements errors))).
  { pose proof (FieldMap.elements_3w errors) as N.
    induction N as [|[k v] l Hk _ IH]; simpl; constructor; auto.
    intros Hin. apply Hk. apply in_map_iff in Hin as ([k' v'] & E & Hin).
    simpl in E. subst k'. apply SetoidList.InA_alt. exists (k, v').
    split; [reflexivity|exact Hin]. }
  destruct (FieldMap.mem f errors) eqn:M.
  - apply FieldMap.mem_2 in M as [kind M].
    apply FieldMap.elements_1, SetoidList.InA_alt in M
      as ([k v] & [Ek Ev] & Hin).
    simpl in Ek, Ev. subst k v.
    assert (Hf : In f (map fst (FieldMap.elements errors)))
      by (apply in_map_iff; now exists (f, kind)).
    apply (count_occ_In string_dec) in Hf.
    pose proof (proj1 (NoDup_count_occ string_dec _) keys f). lia.
  - apply count_occ_not_In. intros Hin.
    apply in_map_iff in Hin as ([k v] & E & Hin). simpl in E. subst k.
    assert (T : FieldMap.mem f errors = true).
    { apply FieldMap.mem_1. exists v. apply FieldMap.elements_2.
      apply SetoidList.InA_alt. exists (f, v). now split. }
    rewrite M in T. discriminate T.
Qed.

(** C5.  When the deserialised input fails validation, the response has
    status 400 and the body [{"error": "Validation Error", "errors": [...]}].
    Every entry of the list has the form [{"field": f, "message": m}]; every
    failing field, that is every field with errors in the result of
    [validate], has exactly one entry, whatever the number of its errors,
    and no other field has one; the message of an entry is the one of that
    field's errors.  [post_action] is not called. *)
Theorem validation_failure_is_400 (req : Proxy.Request) (input : ActionInput)
    (errors : ValidationErrors) :
  from_slice (parse_body req) = Ok input ->
  validate input = Err errors ->
  exists entries : list (string * string),
    wrapper req
    = (mkResponse 400 json_headers
         (JsonBody
            (JObj [("error", JStr "Validation Error");
                   ("errors",
                    JArr (map (fun e =>
                                 JObj [("field", JStr (fst e));
                                       ("message", JStr (snd e))])
                            entries))])), [])
    /\ (forall f,
          count_occ string_dec (map fst entries) f
          = if FieldMap.mem f errors then 1%nat else 0%nat)
    /\ (forall f m,
          In (f, m) entries ->
          exists kind,
            FieldMap.find f errors = Some kind /\ m = field_message f kind).
Proof.
  intros P V.
  exists (map (fun e => (fst e, field_message (fst e) (snd e)))
            (FieldMap.elements errors)).
  unfold wrapper_post. rewrite P, V. repeat apply conj.
  - unfold ret, send_validation_error_400. now rewrite map_map.
  - intros f. rewrite map_map. simpl. apply failing_fields_once.
  - intros f m Hin. apply in_map_iff in Hin as ([k kind] & E & Hin).
    simpl in E. injection E as -> <-. exists kind. split; [|reflexivity].
    apply FieldMap.find_1, FieldMap.elements_2, SetoidList.InA_alt.
    exists (f, kind). now split.
Qed.

(** The outer [Err] of [post_action] is answered with status 500 and the
    envelope of 6.5, carrying the error's message. *)
Lemma internal_error_is_500 (req : Proxy.Request) (input : ActionInput)
    (e : AnyhowError) :
  In input (snd (wrapper req)) ->
  post_action input = Err e ->
  fst (wrapper req)
  = mkResponse 500 json_headers
      (JsonBody (JObj [("error", JStr "Internal Server Error");
                       ("message", JStr e)])).
Proof.
  intros Hin Hpost.
  now rewrite (wrapper_post_after_call req input Hin), Hpost.
Qed.

End WrapperFacts.

Lemma business_error_is_200_witness :
  fst (Scenario.login (Scenario.post (Scenario.lines "a@b.c" "wrong password")))
  = mkResponse 200 Wrapper.json_headers
      (JsonBody (JObj [("type", JStr "InvalidCredentials");
                       ("message", JStr "Invalid email or password")])).
Proof.
  refine (proj1 (business_error_is_200
                   Scenario.parse_body Scenario.from_slice Scenario.post_action
                   (Scenario.post (Scenario.lines "a@b.c" "wrong password"))
                   (Scenario.mkInput "a@b.c" "wrong password")
                   (Scenario.InvalidCredentials "Invalid email or password")
                   _ _)).
  - simpl. left. reflexivity.
  - reflexivity.
Defined.

Lemma validation_failure_is_400_witness :
  (exists entries : list (string * string),
     Scenario.login (Scenario.post (Scenario.lines "ab.c" "short"))
     = (mkResponse 400 Wrapper.json_headers
          (JsonBody
             (JObj [("error", JStr "Validation Error");
                    ("errors",
                     JArr (map (fun e =>
                                  JObj [("field", JStr (fst e));
                                        ("message", JStr (snd e))])
                             entries))])), [])
     /\ count_occ string_dec (map fst entries) "email" = 1%nat
     /\ count_occ string_dec (map fst entries) "password" = 1%nat
     /\ count_occ string_dec (map fst entries) "token" = 0%nat)
  /\ (exists entries : list (string * string),
        fst (@Wrapper.wrapper_post _ _ _ Scenario.ActionInput_strict
               Scenario.ActionResponse_tagged Scenario.ActionError_tagged
               Scenario.messages
               Scenario.parse_body Scenario.from_slice Scenario.post_action
               (Scenario.post (Scenario.lines "somebody.example.org" "pw")))
        = mkResponse 400 Wrapper.json_headers
            (JsonBody
               (JObj [("error", JStr "Validation Error");
                      ("errors",
                       JArr (map (fun e =>
                                    JObj [("field", JStr (fst e));
                                          ("message", JStr (snd e))])
                               entries))]))
        /\ count_occ string_dec (map fst entries) "email" = 1%nat
        /\ length entries = 1%nat).
Proof.
  split.
  - destruct (@validation_failure_is_400 _ _ _ Scenario.ActionInput_validate
                Scenario.ActionResponse_tagged Scenario.ActionError_tagged
                Scenario.messages
                Scenario.parse_body Scenario.from_slice Scenario.post_action
                (Scenario.post (Scenario.lines "ab.c" "short"))
                (Scenario.mkInput "ab.c" "short")
                (FieldMap.add "password"
                   (Wrapper.FieldErrors
                      [Scenario.length_error "min" 8 "short"])
                   (FieldMap.add "email"
                      (Wrapper.FieldErrors [Scenario.email_error "ab.c"])
                      (FieldMap.empty Wrapper.ValidationErrorsKind)))
                eq_refl eq_refl) as (entries & E & C & _).
    exists entries.
    exact (conj E (conj (C "email") (conj (C "password") (C "token")))).
  - destruct (@validation_failure_is_400 _ _ _ Scenario.ActionInput_strict
                Scenario.ActionResponse_tagged Scenario.ActionError_tagged
                Scenario.messages
                Scenario.parse_body Scenario.from_slice Scenario.post_action
                (Scenario.post (Scenario.lines "somebody.example.org" "pw"))
                (Scenario.mkInput "somebody.example.org" "pw")
                (FieldMap.add "email"
                   (Wrapper.FieldErrors
                      [Scenario.email_error "somebody.example.org";
                       Scenario.length_error "max" 12 "somebody.example.org"])
                   (FieldMap.empty Wrapper.ValidationErrorsKind))
                eq_refl eq_refl) as (entries & E & C & _).
    exists entries. split; [now rewrite E|]. split; [exact (C "email")|].
    apply (f_equal fst) in E. simpl in E. injection E as E.
    apply (f_equal (@length Json)) in E. rewrite length_map in E.
    exact (eq_sym E).
Defined.

(** ** Failures under [runHandler] *)

Example ski_handler_responds :
  Ski.runHandler
    (Scenario.ski_env "http://localhost/" (Some Scenario.hello_handler))
  = ([Ski.mkRespond 200 [("content-type", "text/html")] (Some 7)],
     Js.Normal tt).
Proof. reflexivity. Qed.

Example ski_no_handler :
  Ski.runHandler (Scenario.ski_env "http://localhost/" None)
  = ([Ski.mkRespond 500 [("content-type", "text/plain")] None], Js.Normal tt).
Proof. reflexivity. Qed.

(** Whatever Error object the [try] of [runHandler] throws, the [catch]
    answers it with [Ski.failure_response], after the calls already made. *)
Lemma runHandler_catches (env : Ski.Env) (t : list Ski.RespondCall)
    (msg : string) :
  Ski.try_block env = (t, Js.Throw (Js.ErrorObject msg)) ->
  Ski.runHandler env
  = ((t ++ [Ski.failure_response])%list,
     Ski.op_respond env Ski.failure_response).
Proof.
  intros E. unfold Ski.runHandler. rewrite E. reflexivity.
Qed.

(** A handler that throws makes the [try] throw, before any response. *)
Lemma try_block_handler_throws (env : Ski.Env) (parts : Ski.RequestParts)
    (request : Ski.Request)
    (handler : Ski.Request -> Js.Completion Ski.JsResponse) (e : Js.Thrown) :
  Ski.op_get_request_parts env = Js.Normal parts ->
  Ski.new_Request env (Ski.url parts) (Ski.method parts)
    (Ski.parts_headers parts)
    (match Ski.rid parts with
     | Some r => Some (Ski.readableStreamForRid env r)
     | None => None
     end) = Js.Normal request ->
  Ski.handler env = Some handler ->
  handler request = Js.Throw e ->
  Ski.try_block env = ([], Js.Throw e).
Proof.
  intros P R H T. unfold Ski.try_block. rewrite P. simpl.
  rewrite R. simpl. rewrite H. rewrite T. reflexivity.
Qed.

(** C6, as stated, fails.  When the handler under run.js throws an Error,
    the one response is status 500 with content type text/plain and no body
    at all, not the JSON envelope; and when it throws [null] or [undefined],
    the [catch] itself throws and no response is sent. *)
Lemma thrown_error_not_enveloped_counterexample :
  Ski.runHandler
    (Scenario.ski_env "http://localhost/"
       (Some (Scenario.throwing_handler (Js.ErrorObject "boom"))))
  = ([Ski.mkRespond 500 [("content-type", "text/plain")] None], Js.Normal tt)
  /\ Ski.runHandler
       (Scenario.ski_env "http://localhost/"
          (Some (Scenario.throwing_handler Js.Nullish)))
     = ([], Js.Throw (Js.ErrorObject "Cannot read properties of undefined")).
Proof. split; reflexivity. Qed.

(** C6, amended.  The outer [Err] of [post_action] is answered by
    [wrapper_post] with status 500 and the body
    [{"error": "Internal Server Error", "message": m}], [m] being the
    error's message.  Under run.js, an Error object thrown in the [try] of
    [runHandler], in particular by the handler, is answered with
    [op_respond(500, [["content-type", "text/plain"]], null)]: status 500
    and no body. *)
Theorem internal_failure_is_500 :
  (forall (ActionInput ActionResponse ActionError : Type)
          (V : Wrapper.Validate ActionInput)
          (TR : Wrapper.TaggedEnum ActionResponse)
          (TE : Wrapper.TaggedEnum ActionError)
          (FM : Wrapper.FieldMessage)
          (parse_body : Proxy.Request -> string)
          (from_slice : string -> Result ActionInput string)
          (post_action : ActionInput ->
                         Result (Result ActionResponse ActionError)
                           Wrapper.AnyhowError)
          req input m,
      In input
        (snd (Wrapper.wrapper_post parse_body from_slice post_action req)) ->
      post_action input = Err m ->
      fst (Wrapper.wrapper_post parse_body from_slice post_action req)
      = mkResponse 500 Wrapper.json_headers
          (JsonBody (JObj [("error", JStr "Internal Server Error");
                           ("message", JStr m)])))
  /\ (forall env t msg,
        Ski.try_block env = (t, Js.Throw (Js.ErrorObject msg)) ->
        Ski.runHandler env
        = ((t ++ [Ski.mkRespond 500 [("content-type", "text/plain")] None]
           )%list,
           Ski.op_respond env
             (Ski.mkRespond 500 [("content-type", "text/plain")] None)))
  /\ (forall env parts request handler msg,
        Ski.op_get_request_parts env = Js.Normal parts ->
        Ski.new_Request env (Ski.url parts) (Ski.method parts)
          (Ski.parts_headers parts)
          (match Ski.rid parts with
           | Some r => Some (Ski.readableStreamForRid env r)
           | None => None
           end) = Js.Normal request ->
        Ski.handler env = Some handler ->
        handler request = Js.Throw (Js.ErrorObject msg) ->
        fst (Ski.runHandler env)
        = [Ski.mkRespond 500 [("content-type", "text/plain")] None]).
Proof.
  split; [|split].
  - intros. eapply internal_error_is_500; eassumption.
  - intros env t msg E. exact (runHandler_catches env t msg E).
  - intros env parts request handler msg P R H T.
    rewrite (runHandler_catches env [] msg).
    + reflexivity.
    + now apply try_block_handler_throws with parts request handler.
Qed.

Lemma internal_failure_is_500_witness :
  fst (Scenario.login
         (Scenario.post (Scenario.lines "down@example.com" "whatever it is")))
  = mkResponse 500 Wrapper.json_headers
      (JsonBody (JObj [("error", JStr "Internal Server Error");
                       ("message", JStr "Database query failed")]))
  /\ fst (Ski.runHandler
            (Scenario.ski_env "http://localhost/"
               (Some (Scenario.throwing_handler (Js.ErrorObject "boom")))))
     = [Ski.mkRespond 500 [("content-type", "text/plain")] None].
Proof.
  split.
  - refine (proj1 internal_failure_is_500
              Scenario.ActionInput Scenario.ActionResponse Scenario.ActionError
              Scenario.ActionInput_validate Scenario.ActionResponse_tagged
              Scenario.ActionError_tagged Scenario.messages
              Scenario.parse_body Scenario.from_slice Scenario.post_action
              (Scenario.post
                 (Scenario.lines "down@example.com" "whatever it is"))
              (Scenario.mkInput "down@example.com" "whatever it is")
              "Database query failed" _ _).
    + simpl. left. reflexivity.
    + reflexivity.
  - refine (proj2 (proj2 internal_failure_is_500)
              (Scenario.ski_env "http://localhost/"
                 (Some (Scenario.throwing_handler (Js.ErrorObject "boom"))))
              (Ski.mkParts "http://localhost/" "GET" [] None)
              (Ski.mkRequest "http://localhost/" "GET" [] None)
              (Scenario.throwing_handler (Js.ErrorObject "boom"))
              "boom" _ _ _ _); reflexivity.
Defined.

(** ** The page-rendering handler of the bundle *)

Example split_root : Js.split "/" "/" = [""; ""].
Proof. reflexivity. Qed.

Example split_product : Js.split "/" "/product/7" = [""; "product"; "7"].
Proof. reflexivity. Qed.

Example bundle_root :
  Scenario.bundle_handler (Scenario.with_props "/")
  = Js.Normal (Bundle.mkJsResponse (Bundle.StringBody "Not Found") 404).
Proof. reflexivity. Qed.

Example bundle_about :
  Scenario.bundle_handler (Scenario.with_props "/about")
  = Js.Normal (Bundle.mkJsResponse (Bundle.StringBody "Not Found") 404).
Proof. reflexivity. Qed.

(** The product branch tests the element at index 2 as well. *)
Example bundle_product_last :
  Scenario.bundle_handler (Scenario.with_props "/shop/product")
  = Js.Normal (Bundle.mkJsResponse (Bundle.StreamBody "<product>") 200).
Proof. reflexivity. Qed.

(** Reading an array at or past its length gives [undefined]. *)
Lemma index_is_past_end (a : list string) (i : nat) (s : string) :
  length a <= i -> Js.index_is a i s = false.
Proof.
  intros Hlen. unfold Js.index_is.
  now rewrite (proj2 (nth_error_None a i) Hlen).
Qed.

(** The test of the index-page branch holds for no array. *)
Lemma index_branch_test_fails (pathParts : list string) :
  (length pathParts =? 2)%nat && Js.index_is pathParts 2 "" = false.
Proof.
  destruct (Nat.eqb_spec (length pathParts) 2) as [E|_]; [|reflexivity].
  simpl. apply index_is_past_end. lia.
Qed.

(** C10, as stated, fails.  The pathname "/" splits into two parts, but
    when the body of the request is no JSON, [req.json()] rejects and the
    handler throws before it looks at the path: no response is returned. *)
Lemma two_parts_without_json_counterexample :
  length (Js.split "/"
            (Bundle.pathname (Bundle.req_url (Scenario.without_json "/")))) = 2
  /\ Scenario.bundle_handler (Scenario.without_json "/")
     = Js.Throw (Js.ErrorObject "Unexpected end of JSON input")
  /\ Scenario.bundle_handler (Scenario.without_json "/")
     <> Js.Normal (Bundle.mkJsResponse (Bundle.StringBody "Not Found") 404).
Proof.
  repeat split; try reflexivity. discriminate.
Qed.

(** C10, amended.  For every request whose body parses as JSON and whose
    pathname splits on "/" into exactly two parts, the handler returns the
    404 "Not Found" response.  The index-page branch is never taken: its test
    reads index 2 of an array of length 2, so the handler's result does not
    depend on the index page at all.  A request whose body does not parse
    makes the handler throw what [req.json()] throws. *)
Theorem two_parts_not_found {Element Stream : Type}
    (index_page product_page : Json -> Js.Completion Element)
    (renderToReadableStream : Element -> Js.Completion Stream)
    (req : Bundle.Request) :
  (forall props,
     Bundle.json req = Js.Normal props ->
     length (Js.split "/" (Bundle.pathname (Bundle.req_url req))) = 2 ->
     Bundle.handler index_page product_page renderToReadableStream req
     = Js.Normal (Bundle.mkJsResponse (Bundle.StringBody "Not Found") 404))
  /\ (forall other_page,
        Bundle.handler other_page product_page renderToReadableStream req
        = Bundle.handler index_page product_page renderToReadableStream req)
  /\ (forall e,
        Bundle.json req = Js.Throw e ->
        Bundle.handler index_page product_page renderToReadableStream req
        = Js.Throw e).
Proof.
  unfold Bundle.handler. split; [|split].
  - intros props J L. rewrite J. simpl.
    rewrite index_branch_test_fails, L. reflexivity.
  - intros other_page. destruct (Bundle.json req) as [props|e]; simpl.
    + now rewrite index_branch_test_fails.
    + reflexivity.
  - intros e J. now rewrite J.
Qed.

Lemma two_parts_not_found_witness :
  Scenario.bundle_handler (Scenario.with_props "/")
  = Js.Normal (Bundle.mkJsResponse (Bundle.StringBody "Not Found") 404)
  /\ Scenario.bundle_handler (Scenario.without_json "/")
     = Js.Throw (Js.ErrorObject "Unexpected end of JSON input").
Proof.
  split.
  - exact (proj1 (two_parts_not_found Scenario.index_page Scenario.product_page
                    Scenario.renderToReadableStream (Scenario.with_props "/"))
             (JObj []) eq_refl eq_refl).
  - exact (proj2 (proj2 (two_parts_not_found Scenario.index_page
                           Scenario.product_page
                           Scenario.renderToReadableStream
                           (Scenario.without_json "/")))
             (Js.ErrorObject "Unexpected end of JSON input") eq_refl).
Defined.

(** ** The emitter: types *)

Section TypeMapping.

Import Emitter.

Variable tm : TypeMappings.

Example map_option_vec :
  map_type plan_type_mappings (RVec (ROption (RExtern "uuid::Uuid")))
  = Ok (TsArray (TsUnion [TsString; TsNull])).
Proof. reflexivity. Qed.

Example map_int_keyed :
  map_type plan_type_mappings (RHashMap (RInt I32) RString)
  = Err (UnsupportedMapKey (RInt I32)).
Proof. reflexivity. Qed.

(** [map_type] succeeds exactly on the types that contain neither a map
    with a key that is no string nor an unmapped external type. *)
Lemma map_type_total (t : RustType) :
  if unsupported tm t
  then exists e, map_type tm t = Err e
  else exists ts, map_type tm t = Ok ts.
Proof.
  induction t as [| | k | k | | t IH | t IH | k _ v IH | path | name]; simpl;
    try (eexists; reflexivity).
  - destruct (unsupported tm t); destruct IH as [x ->]; eexists; reflexivity.
  - destruct (unsupported tm t); destruct IH as [x ->]; eexists; reflexivity.
  - destruct (is_string_key k); simpl.
    + destruct (unsupported tm v); destruct IH as [x ->]; eexists; reflexivity.
    + eexists; reflexivity.
  - destruct (lookup path tm); eexists; reflexivity.
Qed.

(** C8.  The mapping of the primitive types is fixed: the integer and the
    floating-point types map to [number], [bool] to [boolean], [String],
    [&str] and the external types mapped to "string" (the identifiers and
    dates of 5.2) to [string], [Option<T>] to [T | null], [Vec<T>] to [T[]],
    a map with string keys to [Record<string, T>]; a map with any other key
    is the error [UnsupportedMapKey].  The mapping is total: a type either
    has its TypeScript type or, when it contains such a map or an external
    type without a mapping, its error. *)
Theorem primitive_mapping_fixed :
  (forall k, map_type tm (RInt k) = Ok TsNumber)
  /\ (forall k, map_type tm (RFloat k) = Ok TsNumber)
  /\ map_type tm RBool = Ok TsBoolean
  /\ map_type tm RString = Ok TsString
  /\ map_type tm RStr = Ok TsString
  /\ (forall path, lookup path tm = Some "string" ->
        map_type tm (RExtern path) = Ok TsString)
  /\ (forall path, In path (map fst plan_type_mappings) ->
        map_type plan_type_mappings (RExtern path) = Ok TsString)
  /\ (forall t ts, map_type tm t = Ok ts ->
        map_type tm (ROption t) = Ok (TsUnion [ts; TsNull]))
  /\ (forall t ts, map_type tm t = Ok ts ->
        map_type tm (RVec t) = Ok (TsArray ts))
  /\ (forall k v ts, is_string_key k = true -> map_type tm v = Ok ts ->
        map_type tm (RHashMap k v) = Ok (TsRecord TsString ts))
  /\ (forall k v, is_string_key k = false ->
        map_type tm (RHashMap k v) = Err (UnsupportedMapKey k))
  /\ (forall t, if unsupported tm t
                then exists e, map_type tm t = Err e
                else exists ts, map_type tm t = Ok ts).
Proof.
  repeat apply conj; try reflexivity; try exact map_type_total.
  - intros path E. simpl. now rewrite E.
  - simpl. intros path [<-|[<-|[<-|[<-|[]]]]]; reflexivity.
  - intros t ts E. simpl. now rewrite E.
  - intros t ts E. simpl. now rewrite E.
  - intros k v ts K E. simpl. now rewrite K, E.
  - intros k v K. simpl. now rewrite K.
Qed.

End TypeMapping.

Lemma primitive_mapping_fixed_witness :
  Emitter.map_type Emitter.plan_type_mappings (Emitter.RExtern "uuid::Uuid")
  = Ok Emitter.TsString
  /\ Emitter.map_type Emitter.plan_type_mappings
       (Emitter.ROption (Emitter.RInt Emitter.I64))
     = Ok (Emitter.TsUnion [Emitter.TsNumber; Emitter.TsNull])
  /\ Emitter.map_type Emitter.plan_type_mappings
       (Emitter.RHashMap Emitter.RString Emitter.RBool)
     = Ok (Emitter.TsRecord Emitter.TsString Emitter.TsBoolean)
  /\ Emitter.map_type Emitter.plan_type_mappings
       (Emitter.RHashMap (Emitter.RInt Emitter.U8) Emitter.RBool)
     = Err (Emitter.UnsupportedMapKey (Emitter.RInt Emitter.U8)).
Proof.
  pose proof (primitive_mapping_fixed Emitter.plan_type_mappings)
    as (_ & _ & _ & _ & _ & Hext & _ & Hopt & _ & Hmap & Hkey & _).
  repeat apply conj.
  - apply Hext. reflexivity.
  - apply Hopt. reflexivity.
  - apply Hmap; reflexivity.
  - apply Hkey. reflexivity.
Defined.

(** ** The emitter: enums *)

Section EnumEmission.

Import Emitter.

Variable tm : TypeMappings.

Example emit_plan_Status :
  emit_enum plan_type_mappings plan_Status = Ok plan_Status_ts.
Proof. reflexivity. Qed.

Example emit_BannerVariant :
  emit_enum plan_type_mappings BannerVariant = Ok props_variant_ts.
Proof. reflexivity. Qed.

Example plan_Status_tagged : tagged_union "type" plan_Status_ts = true.
Proof. reflexivity. Qed.

Example emit_int_keyed_variant :
  emit_enum plan_type_mappings
    (mkEnum "Lookup"
       [("Empty", UnitVariant);
        ("Table", StructVariant [("rows", RHashMap (RInt U32) RString)])])
  = Err (UnsupportedMapKey (RInt U32)).
Proof. reflexivity. Qed.






End EnumEmission.


(** ** The compilation state machine *)

Section StateMachine.

Import Watcher.

Example build_fails :
  run (initial (Some 1)) [FileChange; FileChange; BuildFailed "E0308"]
  = mkPipeline (Failed "E0308") (Some 1).
Proof. reflexivity. Qed.

Example build_succeeds :
  run (initial None) [BuildSucceeded 1; FileChange; BuildSucceeded 2]
  = mkPipeline Ready (Some 2).
Proof. reflexivity. Qed.

(** Only [Idle] leads to [Idle]. *)
Lemma step_into_idle (p : Pipeline) (e : Event) :
  state (step p e) = Idle -> state p = Idle.
Proof.
  destruct p as [s a]. unfold step. simpl.
  destruct e, s; simpl; intros E; try reflexivity; discriminate E.
Qed.

(** A pipeline that is in [Idle] after some events has been there all
    along. *)
Lemma run_into_idle (events : list Event) (p : Pipeline) :
  state (run p events) = Idle -> state p = Idle.
Proof.
  revert p. induction events as [|e events IH]; simpl; intros p E.
  - exact E.
  - apply step_into_idle with e. now apply IH.
Qed.

(** C9.  Every change of state that an event causes is one of the edges
    listed: from Idle, Ready or Failed to Compiling on a file change, from
    Compiling to Ready on a successful build, from Compiling to Failed on a
    failed build.  No state other than Idle leads to Idle, in one step or in
    many, in particular not Compiling; and a failed build leaves the active
    module as it was. *)
Theorem transitions_follow_edges (p : Pipeline) (e : Event) :
  (state (step p e) <> state p -> edge (state p) e (state (step p e)))
  /\ ~ (state p = Compiling /\ state (step p e) = Idle)
  /\ (forall events, state (run p events) = Idle -> state p = Idle)
  /\ (forall d, e = BuildFailed d -> active (step p e) = active p)
  /\ (forall d, e = BuildFailed d -> state p = Compiling ->
        step p e = mkPipeline (Failed d) (active p)).
Proof.
  repeat apply conj.
  - destruct p as [s a]. unfold step. simpl.
    destruct e, s; simpl; intros N; try (now elim N); constructor.
  - intros [C E]. apply step_into_idle in E. congruence.
  - intros events. apply run_into_idle.
  - intros d ->. destruct p as [s a]. unfold step. simpl. now destruct s.
  - intros d -> C. destruct p as [s a]. simpl in C. subst s. reflexivity.
Qed.

End StateMachine.

Lemma transitions_follow_edges_witness :
  Watcher.edge Watcher.Compiling (Watcher.BuildFailed "E0308")
    (Watcher.Failed "E0308")
  /\ Watcher.active
       (Watcher.step (Watcher.mkPipeline Watcher.Compiling (Some 1))
          (Watcher.BuildFailed "E0308")) = Some 1.
Proof.
  pose proof (transitions_follow_edges
                (Watcher.mkPipeline Watcher.Compiling (Some 1))
                (Watcher.BuildFailed "E0308")) as (Hedge & _ & _ & Hactive & _).
  split.
  - apply Hedge. discriminate.
  - exact (Hactive "E0308" eq_refl).
Defined.

(** * Further properties of the code *)

(** ** [runHandler]: how many responses, and when *)

(** The [try] of [runHandler] either throws before any response, or ends
    with its one call of [op_respond]. *)
Lemma try_block_shape (env : Ski.Env) :
  (exists e, Ski.try_block env = ([], Js.Throw e))
  \/ (exists c, Ski.try_block env = ([c], Ski.op_respond env c)).
Proof.
  unfold Ski.try_block.
  destruct (Ski.op_get_request_parts env) as [parts|e]; simpl;
    [|left; now exists e].
  destruct (Ski.new_Request env _ _ _ _) as [request|e]; simpl;
    [|left; now exists e].
  destruct (Ski.handler env) as [h|]; [|left; eexists; reflexivity].
  destruct (h request) as [response|e]; simpl; [|left; now exists e].
  right. eexists. reflexivity.
Qed.


(** X2.  When [runHandler] completes normally, a response has been
    delivered: its last call of [op_respond] completed normally. *)
Theorem runHandler_normal_delivers (env : Ski.Env) :
  snd (Ski.runHandler env) = Js.Normal tt ->
  exists before c,
    fst (Ski.runHandler env) = (before ++ [c])%list
    /\ Ski.op_respond env c = Js.Normal tt.
Proof.
  unfold Ski.runHandler.
  destruct (try_block_shape env) as [[e ->]|[c ->]].
  - destruct e as [msg|]; simpl; [|discriminate].
    intros R. now exists [], Ski.failure_response.
  - destruct (Ski.op_respond env c) as [[]|[msg|]] eqn:R; simpl.
    + intros _. now exists [], c.
    + intros R'. now exists [c], Ski.failure_response.
    + discriminate.
Qed.

Lemma runHandler_normal_delivers_witness :
  exists before c,
    fst (Ski.runHandler
           (Scenario.ski_env "http://localhost/" (Some Scenario.hello_handler)))
    = (before ++ [c])%list
    /\ Ski.op_respond
         (Scenario.ski_env "http://localhost/" (Some Scenario.hello_handler)) c
       = Js.Normal tt.
Proof.
  exact (runHandler_normal_delivers
           (Scenario.ski_env "http://localhost/" (Some Scenario.hello_handler))
           eq_refl).
Defined.

(** X3.  When nothing throws, the handler's response is passed on in one
    call: its status and headers unchanged; no resource for a response
    without body, the stream's own resource when it has one (it is not
    converted again), and a fresh resource for a plain stream. *)
Theorem runHandler_passes_response (env : Ski.Env) (parts : Ski.RequestParts)
    (request : Ski.Request)
    (handler : Ski.Request -> Js.Completion Ski.JsResponse)
    (response : Ski.JsResponse) :
  Ski.op_get_request_parts env = Js.Normal parts ->
  Ski.new_Request env (Ski.url parts) (Ski.method parts)
    (Ski.parts_headers parts)
    (match Ski.rid parts with
     | Some r => Some (Ski.readableStreamForRid env r)
     | None => None
     end) = Js.Normal request ->
  Ski.handler env = Some handler ->
  handler request = Js.Normal response ->
  (forall c, Ski.op_respond env c = Js.Normal tt) ->
  exists rid,
    Ski.runHandler env
    = ([Ski.mkRespond (Ski.resp_status response) (Ski.resp_headers response)
          rid], Js.Normal tt)
    /\ (Ski.resp_body response = None -> rid = None)
    /\ (forall b r, Ski.resp_body response = Some b ->
          Ski.resourceId b = Some r -> rid = Some r)
    /\ (forall b, Ski.resp_body response = Some b ->
          Ski.resourceId b = None ->
          rid = Some (Ski.resourceForReadableStream env b)).
Proof.
  intros P R H T Hok.
  unfold Ski.runHandler, Ski.try_block. rewrite P. simpl. rewrite R. simpl.
  rewrite H, T. simpl. unfold Ski.respond. rewrite Hok. simpl.
  eexists. split; [reflexivity|].
  destruct (Ski.resp_body response) as [b|].
  - repeat apply conj.
    + discriminate.
    + intros b' r E Hr. injection E as <-. now rewrite Hr.
    + intros b' E Hr. injection E as <-. now rewrite Hr.
  - repeat apply conj.
    + reflexivity.
    + discriminate.
    + discriminate.
Qed.

Lemma runHandler_passes_response_witness :
  exists rid,
    Ski.runHandler
      (Scenario.ski_env "http://localhost/" (Some Scenario.hello_handler))
    = ([Ski.mkRespond 200 [("content-type", "text/html")] rid], Js.Normal tt)
    /\ rid = Some 7.
Proof.
  destruct (runHandler_passes_response
              (Scenario.ski_env "http://localhost/"
                 (Some Scenario.hello_handler))
              (Ski.mkParts "http://localhost/" "GET" [] None)
              (Ski.mkRequest "http://localhost/" "GET" [] None)
              Scenario.hello_handler
              (Ski.mkJsResponse 200 [("content-type", "text/html")]
                 (Some (Ski.mkStream None "<h1>hello</h1>")))
              eq_refl eq_refl eq_refl eq_refl (fun _ => eq_refl))
    as (rid & E & _ & _ & Hplain).
  exists rid. split; [exact E|].
  exact (Hplain (Ski.mkStream None "<h1>hello</h1>") eq_refl eq_refl).
Defined.

(** ** [split] and [join] *)

Lemma split_nonempty (sep : ascii) (s : string) : Js.split sep s <> [].
Proof.
  destruct s as [|c s]; simpl; [discriminate|].
  destruct (Ascii.eqb c sep); [discriminate|].
  destruct (Js.split sep s); discriminate.
Qed.

(** A string without the separator is its own single piece. *)
Lemma split_free (sep : ascii) (s : string) :
  JsString.has_char sep s = false -> Js.split sep s = [s].
Proof.
  induction s as [|c s IH]; simpl; [reflexivity|].
  destruct (Ascii.eqb c sep); simpl; [discriminate|].
  intros F. now rewrite (IH F).
Qed.

(** The first piece ends at the first separator. *)
Lemma split_app (sep : ascii) (a b : string) :
  JsString.has_char sep a = false ->
  Js.split sep (a ++ String sep b) = a :: Js.split sep b.
Proof.
  induction a as [|c a IH]; simpl.
  - intros _. now rewrite Ascii.eqb_refl.
  - destruct (Ascii.eqb c sep); simpl; [discriminate|].
    intros F. now rewrite (IH F).
Qed.

(** Joining the pieces gives the string back. *)
Lemma join_split (sep : ascii) (s : string) :
  JsString.join sep (Js.split sep s) = s.
Proof.
  induction s as [|c s IH]; simpl; [reflexivity|].
  pose proof (split_nonempty sep s) as N.
  destruct (Ascii.eqb_spec c sep) as [->|_];
    destruct (Js.split sep s) as [|p ps]; try contradiction.
  - simpl. now rewrite <- IH.
  - destruct ps as [|q qs]; simpl in *; now rewrite <- IH.
Qed.

(** No piece contains the separator. *)
Lemma split_pieces_free (sep : ascii) (s : string) :
  Forall (fun p => JsString.has_char sep p = false) (Js.split sep s).
Proof.
  induction s as [|c s IH]; simpl.
  - repeat constructor.
  - destruct (Ascii.eqb c sep) eqn:E.
    + constructor; [reflexivity|exact IH].
    + pose proof (split_nonempty sep s) as N.
      destruct (Js.split sep s) as [|p ps]; [contradiction|].
      inversion IH as [|? ? Hp Hps]; subst.
      constructor; [simpl; now rewrite E|exact Hps].
Qed.

(** ** [handle]: which collaborator a request reaches *)

(** X4.  A request for a static path (under "/client/" or "/static/") is
    answered by the static file handler alone: whatever the internal
    handler, the WASM runtime and the renderer are, the response is the
    same.  Likewise a request under "/api/" reaches the WASM runtime and
    never the renderer or the static files. *)
Theorem handle_isolation (self : Proxy.CoRouterProxy) (req : Proxy.Request) :
  (Proxy.starts_with (Proxy.req_path req) "/client/" = true
   \/ Proxy.starts_with (Proxy.req_path req) "/static/" = true ->
   forall internal wasm props render,
     Proxy.handle
       (Proxy.mkProxy (Proxy.static_serve self) internal wasm props render) req
     = Proxy.static_serve self (Proxy.req_path req))
  /\ (Proxy.starts_with (Proxy.req_path req) "/api/" = true ->
      forall static internal props render,
        Proxy.handle
          (Proxy.mkProxy static internal (Proxy.wasm_handle_request self)
             props render) req
        = Proxy.wasm_handle_request self req).
Proof.
  split.
  - intros Hs internal wasm props render. unfold Proxy.handle.
    replace (Proxy.classify_request (Proxy.req_path req)) with Proxy.Static.
    + reflexivity.
    + symmetry. apply classify_request_iff.
      destruct Hs as [H|H];
        [now apply Proxy.classifies_client|now apply Proxy.classifies_static].
  - intros Ha static internal props render. unfold Proxy.handle.
    replace (Proxy.classify_request (Proxy.req_path req)) with Proxy.ApiOnly.
    + reflexivity.
    + symmetry. apply classify_request_iff. now apply Proxy.classifies_api.
Qed.

Lemma handle_isolation_witness :
  Proxy.handle
    (Proxy.mkProxy (Proxy.static_serve Scenario.proxy)
       (fun _ => mkResponse 500 [] NoBody) (fun _ => mkResponse 500 [] NoBody)
       (fun _ => JNull) (fun _ _ => mkResponse 500 [] NoBody))
    (Scenario.get "/static/logo.png")
  = mkResponse 200 [] (Text "file /static/logo.png").
Proof.
  exact (proj1 (handle_isolation Scenario.proxy
                  (Scenario.get "/static/logo.png"))
           (or_intror eq_refl)
           (fun _ => mkResponse 500 [] NoBody)
           (fun _ => mkResponse 500 [] NoBody)
           (fun _ => JNull) (fun _ _ => mkResponse 500 [] NoBody)).
Defined.

(** ** The bundle's [handler]: which paths render the product page *)

Section BundleRoutes.

Context {Element Stream : Type}.
Variable index_page product_page : Json -> Js.Completion Element.
Variable renderToReadableStream : Element -> Js.Completion Stream.

Local Abbreviation handler :=
  (Bundle.handler index_page product_page renderToReadableStream).

Local Abbreviation not_found :=
  (Js.Normal (Bundle.mkJsResponse (Stream := Stream)
                (Bundle.StringBody "Not Found") 404)).

(** X5.  The URL of a product, "/product/<id>", is answered with 404 "Not
    Found" for every id other than the word "product" itself: the product
    branch compares the element at index 2, which is the id, with
    "product". *)
Theorem product_detail_not_found (req : Bundle.Request) (props : Json)
    (id : string) :
  Bundle.json req = Js.Normal props ->
  Bundle.pathname (Bundle.req_url req) = "/product/" ++ id ->
  JsString.has_char "/" id = false ->
  id <> "product" ->
  handler req = not_found.
Proof.
  intros J P F N. unfold Bundle.handler. rewrite J, P. simpl.
  rewrite (split_free "/" id F). simpl.
  unfold Js.index_is. simpl.
  destruct (String.eqb_spec id "product"); [contradiction|reflexivity].
Qed.

(** X6.  With props parsed, the product page is rendered exactly for the
    pathnames of the form [a/b/product] with [a] and [b] free of slashes
    (for a URL, "/<segment>/product"); every other pathname gets the 404. *)
Theorem product_page_paths (req : Bundle.Request) (props : Json) :
  Bundle.json req = Js.Normal props ->
  ((exists a b,
      JsString.has_char "/" a = false
      /\ JsString.has_char "/" b = false
      /\ Bundle.pathname (Bundle.req_url req)
         = a ++ String "/" (b ++ "/product"))
   -> handler req
      = Bundle.render renderToReadableStream product_page props)
  /\ (~ (exists a b,
           JsString.has_char "/" a = false
           /\ JsString.has_char "/" b = false
           /\ Bundle.pathname (Bundle.req_url req)
              = a ++ String "/" (b ++ "/product"))
      -> handler req = not_found).
Proof.
  intros J. unfold Bundle.handler. rewrite J. simpl.
  rewrite index_branch_test_fails. split.
  - intros (a & b & Fa & Fb & ->).
    rewrite (split_app "/" a _ Fa).
    change (b ++ "/product") with (b ++ String "/" "product").
    rewrite (split_app "/" b _ Fb). reflexivity.
  - intros N.
    pose proof (join_split "/" (Bundle.pathname (Bundle.req_url req))) as Hj.
    pose proof (split_pieces_free "/" (Bundle.pathname (Bundle.req_url req)))
      as Hf.
    destruct (Js.split "/" (Bundle.pathname (Bundle.req_url req)))
      as [|a [|b [|c [|d rest]]]]; try reflexivity.
    unfold Js.index_is. simpl.
    destruct (String.eqb_spec c "product") as [->|]; [|reflexivity].
    exfalso. apply N. exists a, b.
    inversion Hf as [|? ? Fa Hf']; subst.
    inversion Hf' as [|? ? Fb _]; subst.
    repeat split; auto.
Qed.

End BundleRoutes.

Lemma product_detail_not_found_witness :
  Scenario.bundle_handler (Scenario.with_props "/product/7")
  = Js.Normal (Bundle.mkJsResponse (Bundle.StringBody "Not Found") 404).
Proof.
  refine (product_detail_not_found Scenario.index_page Scenario.product_page
            Scenario.renderToReadableStream (Scenario.with_props "/product/7")
            (JObj []) "7" eq_refl eq_refl eq_refl _).
  discriminate.
Defined.

Lemma product_page_paths_witness :
  Scenario.bundle_handler (Scenario.with_props "/shop/product")
  = Js.Normal (Bundle.mkJsResponse (Bundle.StreamBody "<product>") 200).
Proof.
  refine (proj1 (product_page_paths Scenario.index_page Scenario.product_page
                   Scenario.renderToReadableStream
                   (Scenario.with_props "/shop/product") (JObj []) eq_refl) _).
  exists "", "shop". repeat split.
Defined.

(** ** The earlier run script and [runHandler] *)




(** ** [wrapper_get]: panics *)

Example parse_i32_bounds :
  Rust.parse_i32 "2147483647" = Some 2147483647%Z
  /\ Rust.parse_i32 "2147483648" = None
  /\ Rust.parse_i32 "-2147483648" = Some (-2147483648)%Z
  /\ Rust.parse_i32 "+7" = Some 7%Z
  /\ Rust.parse_i32 "-" = None
  /\ Rust.parse_i32 "7 " = None.
Proof. repeat split. Qed.

(** One more digit. *)
Lemma digits_cons (acc : Z) (c : ascii) (s : string) (k : Z) :
  Rust.digit c = Some k ->
  Rust.digits acc (String c s) = Rust.digits (10 * acc + k) s.
Proof. intros E. cbn [Rust.digits]. now rewrite E. Qed.

Ltac digit_step :=
  match goal with
  | |- context [Rust.digits _ (String ?c _)] =>
      let k := eval vm_compute in (Rust.digit c) in
      match k with
      | Some ?v => rewrite (digits_cons _ c _ v eq_refl)
      end
  end.

(** [digits] reads a numeral as the library's own reader does. *)
Lemma digits_acc (d : Decimal.uint) (acc : positive) :
  Rust.digits (Z.pos acc) (NilEmpty.string_of_uint d)
  = Some (Z.pos (Pos.of_uint_acc d acc)).
Proof.
  revert acc.
  induction d as [|d IH|d IH|d IH|d IH|d IH|d IH|d IH|d IH|d IH|d IH];
    intros acc; [reflexivity|..];
    cbn [NilEmpty.string_of_uint Pos.of_uint_acc];
    digit_step; rewrite <- IH; f_equal; lia.
Qed.

Lemma digits_numeral (d : Decimal.uint) :
  Rust.digits 0 (NilEmpty.string_of_uint d) = Some (Z.of_N (Pos.of_uint d)).
Proof.
  induction d as [|d IH|d IH|d IH|d IH|d IH|d IH|d IH|d IH|d IH|d IH];
    [reflexivity|exact IH|..];
    cbn [NilEmpty.string_of_uint Pos.of_uint];
    digit_step; apply digits_acc.
Qed.

Lemma parse_unsigned (c : ascii) (rest : string) :
  Ascii.eqb c "-" = false -> Ascii.eqb c "+" = false ->
  Rust.parse_i32 (String c rest)
  = match Rust.digits 0 (String c rest) with
    | Some n => if Rust.in_i32 n then Some n else None
    | None => None
    end.
Proof. intros M P. unfold Rust.parse_i32. rewrite M, P. reflexivity. Qed.

Lemma parse_signed (c : ascii) (rest : string) :
  Rust.parse_i32 (String "-" (String c rest))
  = match Rust.digits 0 (String c rest) with
    | Some n => if Rust.in_i32 (- n) then Some (- n)%Z else None
    | None => None
    end.
Proof. reflexivity. Qed.

(** A numeral starts with a digit. *)
Lemma numeral_head (d : Decimal.uint) :
  exists c rest,
    NilZero.string_of_uint d = String c rest
    /\ Ascii.eqb c "-" = false /\ Ascii.eqb c "+" = false
    /\ Rust.digits 0 (String c rest) = Some (Z.of_N (Pos.of_uint d)).
Proof.
  pose proof (digits_numeral d) as D.
  destruct d; (do 2 eexists; split; [reflexivity|]);
    (split; [reflexivity|]); (split; [reflexivity|]);
    try exact D; reflexivity.
Qed.

(** [parse::<i32>] reads the decimal numeral of a number back as that
    number, when the number is an [i32], and fails on the numeral of any
    other integer. *)
Lemma parse_decimal (n : Z) :
  Rust.parse_i32 (Rust.decimal n) = if Rust.in_i32 n then Some n else None.
Proof.
  unfold Rust.decimal. destruct n as [|p|p]; [reflexivity|..];
    cbn [Z.to_int NilZero.string_of_int];
    destruct (numeral_head (Pos.to_uint p)) as (c & rest & -> & M & P & D).
  - now rewrite (parse_unsigned c rest M P), D, DecimalPos.Unsigned.of_to.
  - now rewrite parse_signed, D, DecimalPos.Unsigned.of_to.
Qed.

Lemma digits_stop (pre : string) (c : ascii) (post : string) (acc : Z) :
  Rust.digit c = None -> Rust.digits acc (pre ++ String c post) = None.
Proof.
  intros N. revert acc. induction pre as [|p pre IH]; intros acc; simpl.
  - now rewrite N.
  - destruct (Rust.digit p); [apply IH|reflexivity].
Qed.

Lemma parse_none (c : ascii) (rest : string) :
  Rust.digits 0 (if Ascii.eqb c "-" || Ascii.eqb c "+" then rest
                 else String c rest) = None ->
  Rust.parse_i32 (String c rest) = None.
Proof.
  intros D. unfold Rust.parse_i32. cbv zeta.
  destruct (if Ascii.eqb c "-" || Ascii.eqb c "+" then rest
            else String c rest); [reflexivity|].
  now rewrite D.
Qed.

(** A character that is no digit, other than a sign in front, makes
    [parse::<i32>] fail. *)
Lemma parse_not_numeral (pre : string) (c : ascii) (post : string) :
  Rust.digit c = None ->
  (pre = "" -> c <> "-"%char /\ c <> "+"%char) ->
  Rust.parse_i32 (pre ++ String c post) = None.
Proof.
  intros N S. destruct pre as [|p pre].
  - destruct (S eq_refl) as [S1 S2].
    apply Ascii.eqb_neq in S1, S2.
    apply parse_none. rewrite S1, S2.
    exact (digits_stop "" c post 0 N).
  - apply parse_none.
    destruct (Ascii.eqb p "-" || Ascii.eqb p "+").
    + exact (digits_stop pre c post 0 N).
    + exact (digits_stop (String p pre) c post 0 N).
Qed.

Section WrapperGetFacts.

Import WrapperGet.

Context {PageProps E : Type}.
Context `{ToString PageProps} `{ToString E} `{StatusCode E}.
Variable get_props : ProductPath -> Result PageProps E.
Variable builder : Z -> string * string -> Body -> Result Response string.

(** X8.  [wrapper_get] on the path parameter "id".  When the id is the
    decimal numeral of an [i32], [get_props] is called once, with that
    number, and the outcome is the response built from its result: status
    200 for [Ok], the error's own status for [Err].  When the id is the
    numeral of an integer outside of [i32], or has a character that is no
    decimal digit (other than a sign in front), [wrapper_get] panics before
    [get_props] is called: such a request gets no 400 or 404.  A response is
    returned only as the builder made it, with the content type of JSON,
    from the serialised result of [get_props]. *)
Theorem wrapper_get_parses_id (req : Request) (params : PathParams) :
  extensions req = Some params ->
  (forall n : Z,
     get "id" params = Some (Rust.decimal n) ->
     if Rust.in_i32 n
     then snd (wrapper_get get_props builder req) = [mkPath n]
          /\ fst (wrapper_get get_props builder req)
             = match get_props (mkPath n) with
               | Ok props => respond builder 200 (to_string props)
               | Err e => respond builder (status_code e) (to_string e)
               end
     else wrapper_get get_props builder req = (Rust.Panicked, []))
  /\ (forall pre c post,
        get "id" params = Some (pre ++ String c post) ->
        Rust.digit c = None ->
        (pre = "" -> c <> "-"%char /\ c <> "+"%char) ->
        wrapper_get get_props builder req = (Rust.Panicked, []))
  /\ (forall response,
        fst (wrapper_get get_props builder req) = Rust.Returned response ->
        exists n code json,
          snd (wrapper_get get_props builder req) = [mkPath n]
          /\ builder code ("content-type", "application/json")
               (JsonBody json) = Ok response
          /\ match get_props (mkPath n) with
             | Ok props => code = 200%Z /\ to_string props = Ok json
             | Err e => code = status_code e /\ to_string e = Ok json
             end).
Proof.
  intros X. unfold wrapper_get. rewrite X. repeat apply conj.
  - intros n G. rewrite G, parse_decimal.
    destruct (Rust.in_i32 n); [|reflexivity].
    unfold Wrapper.bind, Wrapper.call. simpl.
    now destruct (get_props (mkPath n)).
  - intros pre c post G N S.
    now rewrite G, (parse_not_numeral pre c post N S).
  - intros response.
    destruct (get "id" params) as [raw|]; [|discriminate].
    destruct (Rust.parse_i32 raw) as [n|]; [|discriminate].
    unfold Wrapper.bind, Wrapper.call, respond. simpl.
    destruct (get_props (mkPath n)) as [props|e] eqn:G; simpl.
    + destruct (to_string props) as [json|err] eqn:T; simpl; [|discriminate].
      destruct (builder 200 _ _) as [r|err] eqn:B; simpl; [|discriminate].
      intros R. injection R as <-. exists n, 200%Z, json.
      rewrite G. auto.
    + destruct (to_string e) as [json|err] eqn:T; simpl; [|discriminate].
      destruct (builder (status_code e) _ _) as [r|err] eqn:B; simpl;
        [|discriminate].
      intros R. injection R as <-. exists n, (status_code e), json.
      rewrite G. auto.
Qed.

End WrapperGetFacts.

(** ** The wasi-sdk toolchain *)

Section ToolchainFacts.

Import Toolchain.

Lemma detect_supported (os arch : string) :
  supported os arch ->
  detect_wasi_sdk_url os arch
  = Rust.Returned
      ("https://github.com/WebAssembly/wasi-sdk/releases/download/"
       ++ "wasi-sdk-29/wasi-sdk-29.0-"
       ++ (if String.eqb arch "aarch64" then "arm64" else "x86_64")
       ++ "-" ++ os ++ ".tar.gz").
Proof.
  intros [[<-|[<-|[<-|[]]]] [<-|[<-|[]]]]; reflexivity.
Qed.

Lemma detect_unsupported (os arch : string) :
  ~ supported os arch -> detect_wasi_sdk_url os arch = Rust.Panicked.
Proof.
  unfold supported. intros N. unfold detect_wasi_sdk_url.
  destruct (String.eqb_spec os "linux") as [E1|E1];
    destruct (String.eqb_spec os "macos") as [E2|E2];
    destruct (String.eqb_spec os "windows") as [E3|E3];
    destruct (String.eqb_spec arch "aarch64") as [E4|E4];
    destruct (String.eqb_spec arch "x86_64") as [E5|E5];
    simpl; try reflexivity;
    exfalso; apply N; subst; simpl; tauto.
Qed.

(** X9.  [detect_wasi_sdk_url] knows the three systems linux, macos and
    windows on the two architectures aarch64 and x86_64, and panics on
    everything else.  Every URL it returns is the archive of release 29 named
    after the architecture and the system, with aarch64 spelled arm64. *)
Theorem detect_wasi_sdk_url_table (os arch : string) :
  (supported os arch ->
   detect_wasi_sdk_url os arch
   = Rust.Returned
       ("https://github.com/WebAssembly/wasi-sdk/releases/download/"
        ++ "wasi-sdk-29/wasi-sdk-29.0-"
        ++ (if String.eqb arch "aarch64" then "arm64" else "x86_64")
        ++ "-" ++ os ++ ".tar.gz"))
  /\ (~ supported os arch -> detect_wasi_sdk_url os arch = Rust.Panicked).
Proof.
  split; [apply detect_supported|apply detect_unsupported].
Qed.

(** X10.  [ensure_wasi_sdk] downloads only when the SDK directory is
    missing.  When the directory exists it is returned at once, on any
    platform, also an unsupported one; when it is missing on an unsupported
    platform the call panics before any download; otherwise there is one
    download, of the platform's archive into that directory, and the call
    succeeds exactly when the download does. *)
Theorem ensure_wasi_sdk_cases (h : Host) (cache : string) :
  cache_dir h = Some cache ->
  let sdk_path := join h cache "forte/wasi-sdk-29" in
  (exists_ h sdk_path = true ->
   ensure_wasi_sdk h = (Rust.Returned (Ok sdk_path), []))
  /\ (exists_ h sdk_path = false ->
      ~ supported (OS h) (ARCH h) ->
      ensure_wasi_sdk h = (Rust.Panicked, []))
  /\ (exists_ h sdk_path = false ->
      supported (OS h) (ARCH h) ->
      exists url,
        detect_wasi_sdk_url (OS h) (ARCH h) = Rust.Returned url
        /\ snd (ensure_wasi_sdk h) = [mkDownload url sdk_path]
        /\ (fst (ensure_wasi_sdk h) = Rust.Returned (Ok sdk_path)
            <-> download_and_extract h url sdk_path = Ok tt)).
Proof.
  intros C sdk_path. unfold ensure_wasi_sdk. rewrite C. fold sdk_path.
  repeat apply conj.
  - intros ->. reflexivity.
  - intros -> N. simpl.
    now rewrite (detect_unsupported (OS h) (ARCH h) N).
  - intros -> S. simpl.
    rewrite (detect_supported (OS h) (ARCH h) S).
    eexists. split; [reflexivity|].
    unfold Wrapper.bind, Wrapper.call. simpl.
    destruct (download_and_extract h _ sdk_path) as [[]|reason]; simpl;
      split; try reflexivity; split; auto; discriminate.
Qed.

End ToolchainFacts.

(** ** The login form *)

Lemma is_string_true (s : string) (v : option Json) :
  Frontend.is_string s v = true -> v = Some (JStr s).
Proof.
  destruct v as [[| | |s'| |]|]; simpl; try discriminate.
  intros E. apply String.eqb_eq in E. now subst.
Qed.

(** X11.  [handleLogin] stores a token or navigates only after a response
    with status 200 whose JSON body has the type "Success": never after a 500
    or a 400, and never when the body does not parse. *)
Theorem token_only_after_success
    (fetched : Js.Completion Frontend.FetchResponse)
    (effect : Frontend.UiEffect) :
  In effect (fst (Frontend.handleLogin fetched)) ->
  (exists k v, effect = Frontend.SetItem k v)
  \/ (exists p, effect = Frontend.Navigate p) ->
  exists res data,
    fetched = Js.Normal res
    /\ Frontend.fetch_status res = 200%Z
    /\ Frontend.fetch_json res = Js.Normal data
    /\ Frontend.prop "type" data = Js.Normal (Some (JStr "Success")).
Proof.
  unfold Frontend.handleLogin.
  destruct fetched as [res|e]; simpl; [|intros []].
  destruct (Z.eqb_spec (Frontend.fetch_status res) 500) as [S5|S5].
  { destruct (Frontend.fetch_json res) as [body|e]; simpl; [|intros []].
    destruct (Frontend.prop "error" body) as [x|e]; simpl; [|intros []].
    destruct (Frontend.prop "message" body) as [m|e]; simpl; [|intros []].
    intros [<-|[]] [(k & v & E)|(p & E)]; discriminate E. }
  destruct (Z.eqb_spec (Frontend.fetch_status res) 400) as [S4|S4].
  { destruct (Frontend.fetch_json res) as [body|e]; simpl; [|intros []].
    destruct (Frontend.prop "errors" body) as [x|e]; simpl; [|intros []].
    intros [<-|[]] [(k & v & E)|(p & E)]; discriminate E. }
  destruct (Z.eqb_spec (Frontend.fetch_status res) 200) as [S2|S2];
    [|intros []].
  destruct (Frontend.fetch_json res) as [data|e] eqn:J; simpl; [|intros []].
  destruct (Frontend.prop "type" data) as [type|e] eqn:T; simpl; [|intros []].
  destruct (Frontend.is_string "Success" type) eqn:IsS.
  - intros _ _. exists res, data. apply is_string_true in IsS. subst type.
    auto.
  - destruct (Frontend.is_string "InvalidCredentials" type); [|intros []].
    destruct (Frontend.prop "message" data) as [m|e]; simpl; [|intros []].
    intros [<-|[]] [(k & v & E)|(p & E)]; discriminate E.
Qed.

Section LoginTiers.

Import Wrapper Frontend.

Context {ActionInput ActionResponse ActionError : Type}.
Context `{Validate ActionInput}.
Context `{TaggedEnum ActionResponse} `{TaggedEnum ActionError}.
Context `{FieldMessage}.

Variable parse_body : Proxy.Request -> string.
Variable from_slice : string -> Result ActionInput string.
Variable post_action :
  ActionInput -> Result (Result ActionResponse ActionError) AnyhowError.

Local Abbreviation answer req :=
  (fst (wrapper_post parse_body from_slice post_action req)).

(** X12.  The three tiers of [wrapper_post] reach the three branches of
    [handleLogin]: an internal error is shown in the alert, with its
    message; the validation errors are handed to the form as the list of
    their entries; the business error "InvalidCredentials" sets the form's
    error to its message, and the response "Success" stores its token and
    navigates to the dashboard. *)
Theorem login_tiers (req : Proxy.Request) :
  (forall input m,
     In input (snd (wrapper_post parse_body from_slice post_action req)) ->
     post_action input = Err m ->
     handleLogin (fetched_from (answer req))
     = ([Alert (Some (JStr m))], Eff.Done tt))
  /\ (forall input errors,
        from_slice (parse_body req) = Ok input ->
        validate input = Err errors ->
        handleLogin (fetched_from (answer req))
        = ([SetValidationErrors
              (Some (JArr (map (fun e =>
                                  validation_entry
                                    (fst e, field_message (fst e) (snd e)))
                             (FieldMap.elements errors))))],
           Eff.Done tt))
  /\ (forall input error,
        In input (snd (wrapper_post parse_body from_slice post_action req)) ->
        post_action input = Ok (Err error) ->
        variant_name error = "InvalidCredentials" ->
        member "type" (variant_fields error) = None ->
        handleLogin (fetched_from (answer req))
        = ([SetError (member "message" (variant_fields error))], Eff.Done tt))
  /\ (forall input response,
        In input (snd (wrapper_post parse_body from_slice post_action req)) ->
        post_action input = Ok (Ok response) ->
        variant_name response = "Success" ->
        member "type" (variant_fields response) = None ->
        handleLogin (fetched_from (answer req))
        = ([SetItem "token" (member "token" (variant_fields response));
            Navigate "/dashboard"], Eff.Done tt)).
Proof.
  repeat apply conj.
  - intros input m Hin E.
    rewrite (wrapper_post_after_call _ _ _ req input Hin), E. reflexivity.
  - intros input errors P V.
    unfold wrapper_post. rewrite P, V. reflexivity.
  - intros input error Hin E Hname Hfields.
    rewrite (wrapper_post_after_call _ _ _ req input Hin), E.
    unfold handleLogin, fetched_from, send_json_200. simpl.
    unfold to_json, TaggedEnum_Serialize, tagged_json. simpl.
    rewrite Hname, Hfields. simpl.
    now destruct (member "message" (variant_fields error)).
  - intros input response Hin E Hname Hfields.
    rewrite (wrapper_post_after_call _ _ _ req input Hin), E.
    unfold handleLogin, fetched_from, send_json_200. simpl.
    unfold to_json, TaggedEnum_Serialize, tagged_json. simpl.
    rewrite Hname, Hfields. simpl.
    now destruct (member "token" (variant_fields response)).
Qed.

End LoginTiers.

(** ** The suisei build *)

Example manifest_names :
  Suisei.is_manifest "manifest_Dx3kQ.mjs" = true
  /\ Suisei.is_manifest "manifest_.mjs" = true
  /\ Suisei.is_manifest "manifest_Dx3kQ.mjs.map" = false
  /\ Suisei.is_manifest "entry.mjs" = false.
Proof. repeat split. Qed.

Section SuiseiFacts.

Import Suisei.

Variable h : Host.

(** [find] returns the first element that passes the test. *)
Lemma find_first {A} (f : A -> bool) (before after : list A) (x : A) :
  (forall y, In y before -> f y = false) ->
  f x = true ->
  find f (before ++ x :: after) = Some x.
Proof.
  intros N T. induction before as [|y before IH]; simpl.
  - now rewrite T.
  - rewrite (N y (or_introl eq_refl)). apply IH.
    intros z Hz. apply N. now right.
Qed.

Lemma find_nothing {A} (f : A -> bool) (l : list A) :
  (forall y, In y l -> f y = false) -> find f l = None.
Proof.
  intros N. induction l as [|y l IH]; simpl; [reflexivity|].
  rewrite (N y (or_introl eq_refl)). apply IH.
  intros z Hz. apply N. now right.
Qed.

(** X13.  [createServerEntry] takes the first file of the server directory,
    in the order of [readdir], whose name starts with "manifest_" and ends
    with ".mjs": it writes the shim and then, unless that write fails, the
    entry that imports this manifest.  When no file has such a name it throws
    and writes nothing. *)
Theorem createServerEntry_manifest (serverDir : string) (files : list string) :
  readdir h serverDir = Js.Normal files ->
  ((forall f, In f files -> is_manifest f = false) ->
   createServerEntry h serverDir
   = ([], Eff.Threw (Js.ErrorObject
                       "Could not find manifest file in server directory")))
  /\ (forall before manifest after,
        files = (before ++ manifest :: after)%list ->
        (forall f, In f before -> is_manifest f = false) ->
        is_manifest manifest = true ->
        fst (createServerEntry h serverDir)
        = (WriteFile (resolve h [serverDir; "shim-intl.js"]) shimContent
           :: match writeFile h (resolve h [serverDir; "shim-intl.js"])
                      shimContent with
              | Js.Normal _ =>
                  [WriteFile (resolve h [serverDir; "component.ts"])
                     (entryContent manifest)]
              | Js.Throw _ => []
              end)).
Proof.
  intros R. unfold createServerEntry. rewrite R. simpl. split.
  - intros N. now rewrite (find_nothing _ _ N).
  - intros before manifest after -> N T.
    rewrite (find_first _ _ _ _ N T). unfold write, Eff.act. simpl.
    destruct (writeFile h (resolve h [serverDir; "shim-intl.js"]) shimContent)
      as [[]|e]; simpl; [|reflexivity].
    now destruct (writeFile h (resolve h [serverDir; "component.ts"])
                (entryContent manifest)) as [[]|e].
Qed.

(** When [createServerEntry] is done, it has found a manifest and written
    the shim and then the entry. *)
Lemma createServerEntry_found (serverDir : string) (log : list Action) :
  createServerEntry h serverDir = (log, Eff.Done tt) ->
  exists files manifest,
    readdir h serverDir = Js.Normal files
    /\ find is_manifest files = Some manifest
    /\ log = [WriteFile (resolve h [serverDir; "shim-intl.js"]) shimContent;
              WriteFile (resolve h [serverDir; "component.ts"])
                (entryContent manifest)].
Proof.
  unfold createServerEntry.
  destruct (readdir h serverDir) as [files|e]; simpl; [|discriminate].
  destruct (find is_manifest files) as [m|] eqn:F; [|discriminate].
  unfold write, Eff.act. simpl.
  destruct (writeFile h (resolve h [serverDir; "shim-intl.js"]) shimContent)
    as [[]|e]; simpl; [|discriminate].
  destruct (writeFile h (resolve h [serverDir; "component.ts"])
                (entryContent m)) as [[]|e]; simpl; [|discriminate].
  intros E. injection E as <-. now exists files, m.
Qed.

(** [createServerEntry] only writes files, and it is never left pending. *)
Lemma createServerEntry_writes (serverDir : string) :
  (forall a, In a (fst (createServerEntry h serverDir)) ->
             exists p c, a = WriteFile p c)
  /\ snd (createServerEntry h serverDir) <> Eff.Pending.
Proof.
  unfold createServerEntry.
  destruct (readdir h serverDir) as [files|e]; simpl;
    [|split; [intros ? []|discriminate]].
  destruct (find is_manifest files) as [m|]; simpl;
    [|split; [intros ? []|discriminate]].
  unfold write, Eff.act. simpl.
  destruct (writeFile h (resolve h [serverDir; "shim-intl.js"]) shimContent)
    as [[]|e]; simpl.
  - destruct (writeFile h (resolve h [serverDir; "component.ts"])
                (entryContent m)) as [[]|e]; simpl;
      (split; [intros a [<-|[<-|[]]]; eauto|discriminate]).
  - split; [intros a [<-|[]]; eauto|discriminate].
Qed.

(** X14.  When [buildServer] completes, it has done five things in this
    order: written the shim, the entry that imports the first manifest of
    the server directory and the Rolldown configuration (all three into the
    server directory), run [node_modules/.bin/rolldown -c] on that
    configuration in the server directory, and run
    [node_modules/.bin/jco componentize -w <wit> -o component.wasm
    component.js] in the project root, two levels above the server
    directory, with [NODE_PATH] set to the project's [node_modules]; both
    tools are those of the package of build.ts itself, and both have exited
    with code 0 as their first event.  JCO is never started unless Rolldown
    has exited with code 0. *)
Theorem buildServer_order (buildConfig : BuildConfig) :
  (snd (buildServer h buildConfig) = Eff.Done tt ->
   exists serverDir self files manifest,
     fileURLToPath h (server buildConfig) = Js.Normal serverDir
     /\ fileURLToPath h (import_meta_url h) = Js.Normal self
     /\ readdir h serverDir = Js.Normal files
     /\ find is_manifest files = Some manifest
     /\ let suiseiRoot := resolve h [dirname h self; ".."] in
        let projectRoot := resolve h [serverDir; ".."; ".."] in
        let config := resolve h [serverDir; "rolldown.config.mjs"] in
        let rolldown :=
          resolve h [suiseiRoot; "node_modules"; ".bin"; "rolldown"] in
        let jco := resolve h [suiseiRoot; "node_modules"; ".bin"; "jco"] in
        let jco_args :=
          ["componentize"; "-w"; resolve h [suiseiRoot; "wit"];
           "-o"; resolve h [serverDir; "component.wasm"];
           resolve h [serverDir; "component.js"]] in
        let jco_options :=
          mkOptions projectRoot
            (Some (resolve h [projectRoot; "node_modules"])) in
        fst (buildServer h buildConfig)
        = [WriteFile (resolve h [serverDir; "shim-intl.js"]) shimContent;
           WriteFile (resolve h [serverDir; "component.ts"])
             (entryContent manifest);
           WriteFile config
             (generateRolldownConfig "./component.ts" "./component.js");
           Spawn rolldown ["-c"; config] (mkOptions serverDir None);
           Spawn jco jco_args jco_options]
        /\ hd_error (spawn h rolldown ["-c"; config]
                       (mkOptions serverDir None))
           = Some (Close (Some 0%Z))
        /\ hd_error (spawn h jco jco_args jco_options)
           = Some (Close (Some 0%Z)))
  /\ (forall serverDir self cmd rest options,
        fileURLToPath h (server buildConfig) = Js.Normal serverDir ->
        fileURLToPath h (import_meta_url h) = Js.Normal self ->
        In (Spawn cmd ("componentize" :: rest) options)
           (fst (buildServer h buildConfig)) ->
        hd_error
          (spawn h
             (resolve h [resolve h [dirname h self; ".."];
                         "node_modules"; ".bin"; "rolldown"])
             ["-c"; resolve h [serverDir; "rolldown.config.mjs"]]
             (mkOptions serverDir None))
        = Some (Close (Some 0%Z))).
Proof.
  assert (Hsettle : forall events,
            settle events = Eff.Done tt ->
            hd_error events = Some (Close (Some 0%Z))).
  { intros [|[[[|p|p]|]|e] events]; simpl; try discriminate. reflexivity. }
  unfold buildServer.
  destruct (fileURLToPath h (server buildConfig)) as [serverDir|e]; simpl;
    [|split; [discriminate|intros ? ? ? ? ? E; discriminate E]].
  destruct (fileURLToPath h (client buildConfig)) as [clientDir|e]; simpl;
    [|split; [discriminate|intros ? ? ? ? ? _ _ []]].
  destruct (createServerEntry h serverDir) as [log1 [[]|e|]] eqn:C; simpl.
  2:{ split; [discriminate|]. intros sd self c r o _ _ Hin.
      pose proof (proj1 (createServerEntry_writes serverDir)) as W.
      rewrite C in W. destruct (W _ Hin) as (p & c' & E). discriminate E. }
  2:{ exfalso. pose proof (proj2 (createServerEntry_writes serverDir)) as W.
      rewrite C in W. now apply W. }
  destruct (createServerEntry_found serverDir log1 C)
    as (files & m & R & F & ->).
  unfold write, runCommand, Eff.act. simpl.
  destruct (writeFile h _ (generateRolldownConfig _ _)) as [[]|e]; simpl;
    [|split; [discriminate
             |intros ? ? ? ? ? _ _ [E|[E|[E|[]]]]; discriminate E]].
  destruct (fileURLToPath h (import_meta_url h)) as [self|e]; simpl;
    [|split; [discriminate|intros ? ? ? ? ? _ E; discriminate E]].
  destruct (settle (spawn h _ ["-c"; _] _)) as [[]|e|] eqn:S1; simpl.
  - split.
    + destruct (settle (spawn h _ _ (mkOptions _ (Some _)))) as [[]|e|] eqn:S2;
        simpl; try discriminate.
      intros _. exists serverDir, self, files, m. cbv zeta.
      repeat apply conj; try reflexivity; try assumption;
        now apply Hsettle.
    + intros sd self' c r o E1 E2 _. injection E1 as <-. injection E2 as <-.
      now apply Hsettle.
  - split; [discriminate|].
    intros sd self' c r o E1 E2 [E|[E|[E|[E|[]]]]]; discriminate E.
  - split; [discriminate|].
    intros sd self' c r o E1 E2 [E|[E|[E|[E|[]]]]]; discriminate E.
Qed.

End SuiseiFacts.

(** ** Network blocks and images *)

Section InfraFacts.

Import Infra.

Example subnet_of_vpc_block :
  subnet_ipv6CidrBlock (Some "2600:1f18:4c2:ab00::/56")
  = "2600:1f18:4c2:ab0000::/64".
Proof. reflexivity. Qed.

(** A string that starts with "::/" has a slash for its third character. *)
Lemma prefix_sep (s : string) :
  String.prefix "::/" s = true -> exists r, s = "::/" ++ r.
Proof.
  destruct s as [|c1 [|c2 [|c3 r]]]; cbn [String.prefix];
    repeat (match goal with
            | |- context [ascii_dec ?a ?b] => destruct (ascii_dec a b) as [<-|]
            end);
    try discriminate.
  intros _. now exists r.
Qed.

Lemma before_first_cons (sep : string) (c : ascii) (s : string) :
  before_first sep (String c s)
  = if String.prefix sep (String c s) then EmptyString
    else String c (before_first sep s).
Proof. reflexivity. Qed.

(** In front of "::/", a part without slash is the part before the first
    "::/". *)
Lemma before_first_sep (p rest : string) :
  JsString.has_char "/" p = false ->
  before_first "::/" (p ++ "::/" ++ rest) = p.
Proof.
  induction p as [|c p IH]; intros F.
  - now destruct rest.
  - simpl in F. apply orb_false_elim in F as [Fc Fp].
    change (String c p ++ "::/" ++ rest)
      with (String c (p ++ "::/" ++ rest)).
    rewrite before_first_cons.
    destruct (String.prefix "::/" (String c (p ++ "::/" ++ rest))) eqn:P.
    + exfalso. apply prefix_sep in P as [r E].
      destruct p as [|c2 [|c3 p]]; simpl in E; try discriminate E.
      injection E as _ _ E3 _. subst c3. simpl in Fp.
      destruct (Ascii.eqb c2 "/"); discriminate Fp.
    + now rewrite (IH Fp).
Qed.

(** X15.  From the block [p::/n] of the VPC, with [p] free of slashes, the
    block of the subnet is [p] followed by "00::/64": the prefix length [n]
    is dropped and two zeros are appended to the last group of [p].  Without
    a block the subnet gets the empty string. *)
Theorem subnet_block_of_vpc_block (p rest : string) :
  JsString.has_char "/" p = false ->
  subnet_ipv6CidrBlock (Some (p ++ "::/" ++ rest)) = p ++ "00::/64"
  /\ subnet_ipv6CidrBlock (Some "") = ""
  /\ subnet_ipv6CidrBlock None = "".
Proof.
  intros F. repeat apply conj; try reflexivity.
  unfold subnet_ipv6CidrBlock.
  rewrite (before_first_sep p rest F).
  destruct p; reflexivity.
Qed.

Lemma subnet_block_of_vpc_block_witness :
  subnet_ipv6CidrBlock (Some ("2600:1f18:4c2:ab00" ++ "::/" ++ "56"))
  = "2600:1f18:4c2:ab00" ++ "00::/64".
Proof.
  exact (proj1 (subnet_block_of_vpc_block "2600:1f18:4c2:ab00" "56" eq_refl)).
Defined.

Lemma replace_cons (pat rep : string) (c : ascii) (s : string) :
  replace pat rep (String c s)
  = if String.prefix pat (String c s)
    then rep ++ drop (String.length pat) (String c s)
    else String c (replace pat rep s).
Proof. reflexivity. Qed.

Lemma prefix_needs_slash (c : ascii) (s : string) :
  Ascii.eqb c "/" = false -> String.prefix "/56" (String c s) = false.
Proof.
  intros F. cbn [String.prefix].
  destruct (ascii_dec "/" c) as [<-|]; [discriminate F|reflexivity].
Qed.

(** Replacing "/56" by "/64" keeps the length. *)
Lemma replace_length (s : string) :
  String.length (replace "/56" "/64" s) = String.length s.
Proof.
  induction s as [|c s IH]; [reflexivity|].
  rewrite replace_cons.
  destruct (String.prefix "/56" (String c s)) eqn:P.
  - destruct s as [|c2 [|c3 r]]; cbn [String.prefix] in P;
      repeat (match type of P with
              | context [ascii_dec ?a ?b] => destruct (ascii_dec a b)
              end);
      try discriminate P.
    reflexivity.
  - simpl. now rewrite IH.
Qed.

(** Without a slash there is nothing to replace. *)
Lemma replace_free (s : string) :
  JsString.has_char "/" s = false -> replace "/56" "/64" s = s.
Proof.
  induction s as [|c s IH]; [reflexivity|].
  simpl JsString.has_char. intros F. apply orb_false_elim in F as [Fc Fs].
  rewrite replace_cons, (prefix_needs_slash c s Fc). now rewrite (IH Fs).
Qed.

Lemma replace_suffix (p r : string) :
  JsString.has_char "/" p = false ->
  replace "/56" "/64" (p ++ "/56" ++ r) = p ++ "/64" ++ r.
Proof.
  induction p as [|c p IH]; intros F.
  - now destruct r.
  - simpl in F. apply orb_false_elim in F as [Fc Fp].
    change (String c p ++ "/56" ++ r) with (String c (p ++ "/56" ++ r)).
    rewrite replace_cons, (prefix_needs_slash c _ Fc). now rewrite (IH Fp).
Qed.

(** X16.  The blocks of the worker's subnet are those of its network, one
    for one and of the same length: a block [p/56], [p] free of slashes,
    becomes [p/64], and a block without "/56" stays as it is (here: one
    without any slash). *)
Theorem subnet_blocks_of_network_blocks (blocks : list string) :
  map String.length (subnet_ipv6cidrBlocks blocks) = map String.length blocks
  /\ (forall p, JsString.has_char "/" p = false ->
        In (p ++ "/56") blocks ->
        In (p ++ "/64") (subnet_ipv6cidrBlocks blocks))
  /\ (forall s, JsString.has_char "/" s = false ->
        In s blocks -> In s (subnet_ipv6cidrBlocks blocks)).
Proof.
  unfold subnet_ipv6cidrBlocks. repeat apply conj.
  - rewrite map_map. apply map_ext. intros s. apply replace_length.
  - intros p F Hin. apply in_map_iff. exists (p ++ "/56"). split; [|exact Hin].
    exact (replace_suffix p "" F).
  - intros s F Hin. apply in_map_iff. exists s. split; [|exact Hin].
    now apply replace_free.
Qed.

Lemma subnet_blocks_of_network_blocks_witness :
  In ("2603:c020:8:5600::" ++ "/64")
     (subnet_ipv6cidrBlocks ["2603:c020:8:5600::/56"]).
Proof.
  refine (proj1 (proj2 (subnet_blocks_of_network_blocks
                          ["2603:c020:8:5600::/56"]))
            "2603:c020:8:5600::" eq_refl _).
  simpl. left. reflexivity.
Defined.

(** X17.  The image is the first one of the list that may be used and has
    "-aarch64-" in its name.  When that image has an empty id the choice
    fails, also when a later image would do; it fails as well when no image
    qualifies. *)
Theorem pick_image_first (images : list Image) :
  (forall before x after,
     images = (before ++ x :: after)%list ->
     (forall y, In y before -> usable y = false) ->
     usable x = true ->
     pick_image images
     = if String.eqb (image_id x) ""
       then Js.Throw (Js.ErrorObject "can not find image")
       else Js.Normal (image_id x))
  /\ ((forall y, In y images -> usable y = false) ->
      pick_image images = Js.Throw (Js.ErrorObject "can not find image")).
Proof.
  unfold pick_image. split.
  - intros before x after -> N T.
    now rewrite (find_first usable before after x N T).
  - intros N. now rewrite (find_nothing usable images N).
Qed.

End InfraFacts.

(** ** The properties above, on concrete inputs *)

Example wrapper_get_product_7 :
  Fixtures.product_get (Fixtures.product "7")
  = (Rust.Returned
       (mkResponse 200 [("content-type", "application/json")]
          (JsonBody (JObj [("id", JNum 7); ("name", JStr "Widget")]))),
     [WrapperGet.mkPath 7]).
Proof. reflexivity. Qed.

Example wrapper_get_product_8 :
  fst (Fixtures.product_get (Fixtures.product "8"))
  = Rust.Returned
      (mkResponse 404 [("content-type", "application/json")]
         (JsonBody (JObj [("id", JNum 8)]))).
Proof. reflexivity. Qed.

Example wrapper_get_product_abc :
  Fixtures.product_get (Fixtures.product "abc")
  = (Rust.Panicked, []).
Proof. reflexivity. Qed.

Example wrapper_get_no_params :
  Fixtures.product_get (WrapperGet.mkRequest None)
  = (Rust.Panicked, []).
Proof. reflexivity. Qed.

Lemma wrapper_get_parses_id_witness :
  snd (Fixtures.product_get (Fixtures.product "-8")) = [WrapperGet.mkPath (-8)]
  /\ fst (Fixtures.product_get (Fixtures.product "-8"))
     = Rust.Returned
         (mkResponse 404 [("content-type", "application/json")]
            (JsonBody (JObj [("id", JNum (-8))])))
  /\ Fixtures.product_get (Fixtures.product "2147483648")
     = (Rust.Panicked, [])
  /\ Fixtures.product_get (Fixtures.product "7a") = (Rust.Panicked, []).
Proof.
  pose proof (proj1 (@wrapper_get_parses_id _ _ Fixtures.PageProps_to_string
                       Fixtures.NotFound_to_string Fixtures.NotFound_status
                       Fixtures.get_props Fixtures.builder
                       (Fixtures.product "-8") [("id", "-8")] eq_refl)
                (-8)%Z eq_refl) as [Hlog Hanswer].
  pose proof (proj1 (@wrapper_get_parses_id _ _ Fixtures.PageProps_to_string
                       Fixtures.NotFound_to_string Fixtures.NotFound_status
                       Fixtures.get_props Fixtures.builder
                       (Fixtures.product "2147483648")
                       [("id", "2147483648")] eq_refl)
                2147483648%Z eq_refl) as Hrange.
  pose proof (proj1 (proj2 (@wrapper_get_parses_id _ _
                       Fixtures.PageProps_to_string
                       Fixtures.NotFound_to_string Fixtures.NotFound_status
                       Fixtures.get_props Fixtures.builder
                       (Fixtures.product "7a") [("id", "7a")] eq_refl))
                "7" "a"%char "" eq_refl eq_refl) as Hletter.
  repeat apply conj.
  - exact Hlog.
  - exact Hanswer.
  - exact Hrange.
  - apply Hletter. discriminate.
Defined.

Lemma detect_wasi_sdk_url_table_witness :
  Toolchain.detect_wasi_sdk_url "macos" "aarch64"
  = Rust.Returned
      ("https://github.com/WebAssembly/wasi-sdk/releases/download/"
       ++ "wasi-sdk-29/wasi-sdk-29.0-" ++ "arm64" ++ "-" ++ "macos"
       ++ ".tar.gz")
  /\ Toolchain.detect_wasi_sdk_url "freebsd" "x86_64" = Rust.Panicked.
Proof.
  split.
  - refine (proj1 (detect_wasi_sdk_url_table "macos" "aarch64") _).
    unfold Toolchain.supported. simpl. tauto.
  - refine (proj2 (detect_wasi_sdk_url_table "freebsd" "x86_64") _).
    unfold Toolchain.supported. simpl.
    intros [[E|[E|[E|[]]]] _]; discriminate E.
Defined.

Lemma ensure_wasi_sdk_cases_witness :
  Toolchain.ensure_wasi_sdk (Fixtures.machine "freebsd" true)
  = (Rust.Returned (Ok "/home/dev/.cache/forte/wasi-sdk-29"), [])
  /\ Toolchain.ensure_wasi_sdk (Fixtures.machine "freebsd" false)
     = (Rust.Panicked, [])
  /\ snd (Toolchain.ensure_wasi_sdk (Fixtures.machine "linux" false))
     = [Toolchain.mkDownload
          "https://github.com/WebAssembly/wasi-sdk/releases/download/wasi-sdk-29/wasi-sdk-29.0-x86_64-linux.tar.gz"
          "/home/dev/.cache/forte/wasi-sdk-29"]
  /\ fst (Toolchain.ensure_wasi_sdk (Fixtures.machine "linux" false))
     = Rust.Returned (Ok "/home/dev/.cache/forte/wasi-sdk-29")
  /\ snd (Toolchain.ensure_wasi_sdk Fixtures.windows_machine)
     = [Toolchain.mkDownload
          "https://github.com/WebAssembly/wasi-sdk/releases/download/wasi-sdk-29/wasi-sdk-29.0-arm64-windows.tar.gz"
          "C:\Users\dev\AppData\Local\forte/wasi-sdk-29"].
Proof.
  assert (linux : Toolchain.supported "linux" "x86_64")
    by (split; simpl; auto).
  assert (windows : Toolchain.supported "windows" "aarch64")
    by (split; simpl; auto).
  destruct (proj2 (proj2 (ensure_wasi_sdk_cases
                            (Fixtures.machine "linux" false)
                            "/home/dev/.cache" eq_refl)) eq_refl linux)
    as (url & U & L & R).
  injection U as <-.
  destruct (proj2 (proj2 (ensure_wasi_sdk_cases Fixtures.windows_machine
                            "C:\Users\dev\AppData\Local" eq_refl))
              eq_refl windows)
    as (url' & U' & L' & _).
  injection U' as <-.
  repeat apply conj.
  - exact (proj1 (ensure_wasi_sdk_cases (Fixtures.machine "freebsd" true)
                    "/home/dev/.cache" eq_refl) eq_refl).
  - refine (proj1 (proj2 (ensure_wasi_sdk_cases
                            (Fixtures.machine "freebsd" false)
                            "/home/dev/.cache" eq_refl)) eq_refl _).
    unfold Toolchain.supported. simpl.
    intros [[E|[E|[E|[]]]] _]; discriminate E.
  - exact L.
  - exact (proj2 R eq_refl).
  - exact L'.
Defined.

Lemma token_only_after_success_witness :
  exists res data,
    Frontend.fetched_from
      (fst (Scenario.login
              (Scenario.post (Scenario.lines "a@b.c" "correct horse"))))
    = Js.Normal res
    /\ Frontend.fetch_status res = 200%Z
    /\ Frontend.fetch_json res = Js.Normal data
    /\ Frontend.prop "type" data = Js.Normal (Some (JStr "Success")).
Proof.
  refine (token_only_after_success
            (Frontend.fetched_from
               (fst (Scenario.login
                       (Scenario.post (Scenario.lines "a@b.c" "correct horse")))))
            (Frontend.Navigate "/dashboard") _ _).
  - simpl. right. left. reflexivity.
  - right. now exists "/dashboard".
Defined.

Lemma login_tiers_witness :
  Frontend.handleLogin
    (Frontend.fetched_from
       (fst (Scenario.login
               (Scenario.post (Scenario.lines "a@b.c" "wrong password")))))
  = ([Frontend.SetError (Some (JStr "Invalid email or password"))],
     Eff.Done tt).
Proof.
  refine (proj1 (proj2 (proj2 (@login_tiers
                                 Scenario.ActionInput Scenario.ActionResponse
                                 Scenario.ActionError
                                 Scenario.ActionInput_validate
                                 Scenario.ActionResponse_tagged
                                 Scenario.ActionError_tagged
                                 Scenario.messages
                                 Scenario.parse_body
                                 Scenario.from_slice Scenario.post_action
                                 (Scenario.post
                                    (Scenario.lines "a@b.c" "wrong password")))))
            (Scenario.mkInput "a@b.c" "wrong password")
            (Scenario.InvalidCredentials "Invalid email or password")
            _ eq_refl eq_refl eq_refl).
  simpl. left. reflexivity.
Defined.

Lemma createServerEntry_manifest_witness :
  fst (Suisei.createServerEntry (Fixtures.build_host 0) "/app/dist/server")
  = [Suisei.WriteFile "/app/dist/server/shim-intl.js" Suisei.shimContent;
     Suisei.WriteFile "/app/dist/server/component.ts"
       (Suisei.entryContent "manifest_Dx3kQ.mjs")].
Proof.
  refine (proj2 (createServerEntry_manifest (Fixtures.build_host 0)
                   "/app/dist/server"
                   ["_astro"; "manifest_Dx3kQ.mjs"; "manifest_old.mjs"]
                   eq_refl)
            ["_astro"] "manifest_Dx3kQ.mjs" ["manifest_old.mjs"]
            eq_refl _ eq_refl).
  intros f [<-|[]]. reflexivity.
Defined.

Lemma buildServer_order_witness :
  fst (Suisei.buildServer (Fixtures.build_host 0) Fixtures.build_config)
  = [Suisei.WriteFile "/app/dist/server/shim-intl.js" Suisei.shimContent;
     Suisei.WriteFile "/app/dist/server/component.ts"
       (Suisei.entryContent "manifest_Dx3kQ.mjs");
     Suisei.WriteFile "/app/dist/server/rolldown.config.mjs"
       (Suisei.generateRolldownConfig "./component.ts" "./component.js");
     Suisei.Spawn "/opt/suisei/dist/../node_modules/.bin/rolldown"
       ["-c"; "/app/dist/server/rolldown.config.mjs"]
       (Suisei.mkOptions "/app/dist/server" None);
     Suisei.Spawn "/opt/suisei/dist/../node_modules/.bin/jco"
       ["componentize"; "-w"; "/opt/suisei/dist/../wit";
        "-o"; "/app/dist/server/component.wasm";
        "/app/dist/server/component.js"]
       (Suisei.mkOptions "/app/dist/server/../.."
          (Some "/app/dist/server/../../node_modules"))]
  /\ forall cmd rest options,
       ~ In (Suisei.Spawn cmd ("componentize" :: rest) options)
            (fst (Suisei.buildServer (Fixtures.build_host 1)
                    Fixtures.build_config)).
Proof.
  split.
  - destruct (proj1 (buildServer_order (Fixtures.build_host 0)
                       Fixtures.build_config) eq_refl)
      as (serverDir & self & files & manifest & E1 & E2 & E3 & E4 & L & _).
    injection E1 as <-. injection E2 as <-. injection E3 as <-.
    injection E4 as <-. exact L.
  - intros cmd rest options Hin.
    pose proof (proj2 (buildServer_order (Fixtures.build_host 1)
                         Fixtures.build_config)
                  "/app/dist/server" "/opt/suisei/dist/build.js"
                  cmd rest options eq_refl eq_refl Hin) as Hcode.
    discriminate Hcode.
Defined.

Lemma pick_image_first_witness :
  Infra.pick_image Fixtures.images
  = Js.Throw (Js.ErrorObject "can not find image").
Proof.
  refine (proj1 (pick_image_first Fixtures.images)
            [Infra.mkImage "ocid1.image.x86" true "Oracle-Linux-10-2025"]
            (Infra.mkImage "" true "Oracle-Linux-10-aarch64-2025")
            [Infra.mkImage "ocid1.image.arm" true
               "Oracle-Linux-10-aarch64-2024"]
            eq_refl _ eq_refl).
  intros y [<-|[]]. reflexivity.
Defined.
